(** * restya2trello: the Restyaboard -> Trello converter, embedded and verified

    The development follows [restya2trello.py].  The parsed input document
    and the emitted board are values of one type [json]; Python's dynamic
    operations ([dict.get], subscription, truthiness, [or], [sorted],
    iteration) are functions on [json] that return a [result], so that the
    exceptions the script can raise are visible in the model.  Strings are
    byte strings holding the UTF-8 encoding, numbers are the integers
    (documents with fractional numbers are outside the model). *)

From Stdlib Require Import ZArith List String Ascii Bool Lia DecimalString.
From Stdlib Require Import Permutation Sorted.
Import ListNotations.

Local Open Scope string_scope.
Local Open Scope list_scope.
Local Open Scope Z_scope.

(** ** hashlib.md5 *)

Module MD5.

Definition two32 : Z := 4294967296.

Definition add32 (a b : Z) : Z := (a + b) mod two32.

Definition not32 (a : Z) : Z := Z.lxor a (two32 - 1).

Definition rotl32 (x c : Z) : Z :=
  Z.lor (Z.shiftl x c mod two32) (Z.shiftr x (32 - c)).

(** Per-round shift amounts. *)
Definition shifts : list Z :=
  [7; 12; 17; 22; 7; 12; 17; 22; 7; 12; 17; 22; 7; 12; 17; 22;
   5; 9; 14; 20; 5; 9; 14; 20; 5; 9; 14; 20; 5; 9; 14; 20;
   4; 11; 16; 23; 4; 11; 16; 23; 4; 11; 16; 23; 4; 11; 16; 23;
   6; 10; 15; 21; 6; 10; 15; 21; 6; 10; 15; 21; 6; 10; 15; 21].

(** K[i] = floor (2^32 * |sin (i + 1)|). *)
Definition sines : list Z :=
  [3614090360; 3905402710; 606105819; 3250441966;
   4118548399; 1200080426; 2821735955; 4249261313;
   1770035416; 2336552879; 4294925233; 2304563134;
   1804603682; 4254626195; 2792965006; 1236535329;
   4129170786; 3225465664; 643717713; 3921069994;
   3593408605; 38016083; 3634488961; 3889429448;
   568446438; 3275163606; 4107603335; 1163531501;
   2850285829; 4243563512; 1735328473; 2368359562;
   4294588738; 2272392833; 1839030562; 4259657740;
   2763975236; 1272893353; 4139469664; 3200236656;
   681279174; 3936430074; 3572445317; 76029189;
   3654602809; 3873151461; 530742520; 3299628645;
   4096336452; 1126891415; 2878612391; 4237533241;
   1700485571; 2399980690; 4293915773; 2240044497;
   1873313359; 4264355552; 2734768916; 1309151649;
   4149444226; 3174756917; 718787259; 3951481745].

Definition bytes_of_string (s : string) : list Z :=
  map (fun c => Z.of_N (N_of_ascii c)) (list_ascii_of_string s).

(** Little-endian bytes of a word, [n] of them. *)
Fixpoint le_bytes (n : nat) (w : Z) : list Z :=
  match n with
  | O => []
  | S n' => (w mod 256) :: le_bytes n' (w / 256)
  end.

Fixpoint le_word (bs : list Z) : Z :=
  match bs with
  | [] => 0
  | b :: bs' => b + 256 * le_word bs'
  end.

(** The message, one 0x80 byte, zeros up to 56 mod 64, the bit length on
    eight bytes. *)
Definition pad (msg : list Z) : list Z :=
  let len := Z.of_nat (List.length msg) in
  let zeros := Z.to_nat ((55 - len) mod 64) in
  msg ++ [128] ++ repeat 0 zeros ++ le_bytes 8 ((8 * len) mod 2 ^ 64).

Fixpoint words_of (n : nat) (bs : list Z) : list Z :=
  match n with
  | O => []
  | S n' => le_word (firstn 4 bs) :: words_of n' (skipn 4 bs)
  end.

Fixpoint blocks (n : nat) (bs : list Z) : list (list Z) :=
  match n with
  | O => []
  | S n' => words_of 16 (firstn 64 bs) :: blocks n' (skipn 64 bs)
  end.

Record regs : Type := Regs { rA : Z; rB : Z; rC : Z; rD : Z }.

Definition init : regs :=
  Regs 1732584193 4023233417 2562383102 271733878.

Definition round (m : list Z) (i : Z) (r : regs) : regs :=
  let '(Regs a b c d) := r in
  let f :=
    if i <? 16 then Z.lor (Z.land b c) (Z.land (not32 b) d)
    else if i <? 32 then Z.lor (Z.land d b) (Z.land (not32 d) c)
    else if i <? 48 then Z.lxor b (Z.lxor c d)
    else Z.lxor c (Z.lor b (not32 d)) in
  let g :=
    if i <? 16 then i
    else if i <? 32 then (5 * i + 1) mod 16
    else if i <? 48 then (3 * i + 5) mod 16
    else (7 * i) mod 16 in
  let f' := add32 (add32 (add32 f a) (nth (Z.to_nat i) sines 0))
                  (nth (Z.to_nat g) m 0) in
  Regs d (add32 b (rotl32 f' (nth (Z.to_nat i) shifts 0))) b c.

Definition rounds (m : list Z) (r : regs) : regs :=
  fold_left (fun acc i => round m (Z.of_nat i) acc) (seq 0 64) r.

Definition compress (r : regs) (m : list Z) : regs :=
  let r' := rounds m r in
  Regs (add32 (rA r) (rA r')) (add32 (rB r) (rB r'))
       (add32 (rC r) (rC r')) (add32 (rD r) (rD r')).

Definition digest (msg : list Z) : list Z :=
  let p := pad msg in
  let r := fold_left compress (blocks (List.length p / 64) p) init in
  le_bytes 4 (rA r) ++ le_bytes 4 (rB r) ++ le_bytes 4 (rC r)
           ++ le_bytes 4 (rD r).

Definition hex_digit (n : Z) : ascii :=
  nth (Z.to_nat n)
      (list_ascii_of_string "0123456789abcdef") "0"%char.

Fixpoint hex_of_bytes (bs : list Z) : string :=
  match bs with
  | [] => ""
  | b :: bs' =>
      String (hex_digit (b / 16)) (String (hex_digit (b mod 16))
                                          (hex_of_bytes bs'))
  end.

(** [hashlib.md5(s).hexdigest()] for the byte string [s]. *)
Definition hexdigest (s : string) : string :=
  hex_of_bytes (digest (bytes_of_string s)).

End MD5.

(** ** Parsed JSON documents and Python values *)

(** What [json.load] returns, and what [json.dump] is given.  A dict keeps
    its items in insertion order; a lookup takes the first item with the
    key. *)
#[warnings="-register-all"]
Inductive json : Type :=
| JNull
| JBool (b : bool)
| JInt (n : Z)
| JStr (s : string)
| JList (xs : list json)
| JDict (kvs : list (string * json)).

(** The exceptions the script can raise between reading and writing. *)
Inductive exn : Type :=
| KeyError (key : json)
| TypeError
| AttributeError
| IndexError.

Inductive result (A : Type) : Type :=
| Ok (a : A)
| Err (e : exn).

Arguments Ok {A} a.
Arguments Err {A} e.

Definition bind {A B : Type} (m : result A) (k : A -> result B) : result B :=
  match m with
  | Ok a => k a
  | Err e => Err e
  end.

Notation "x <- m ;; k" := (bind m (fun x => k))
  (at level 61, m at next level, right associativity).
Notation "' p <- m ;; k" := (bind m (fun x => let p := x in k))
  (at level 61, p pattern, m at next level, right associativity).

(** [repr] of a [str] depends on the Unicode character database; it is the
    one Python builtin taken as a parameter of the model. *)
Class StrRepr : Type := repr_str : string -> string.

(** [repr] of a [str] that has no quote, backslash, control or non-ASCII
    character. *)
Definition plain_repr : StrRepr := fun s => ("'" ++ s ++ "'")%string.

Definition truthy (v : json) : bool :=
  match v with
  | JNull => false
  | JBool b => b
  | JInt n => negb (n =? 0)
  | JStr s => negb (s =? "")%string
  | JList xs => match xs with [] => false | _ => true end
  | JDict kvs => match kvs with [] => false | _ => true end
  end.

(** [a or b] *)
Definition py_or (a b : json) : json := if truthy a then a else b.

Fixpoint assoc (k : string) (kvs : list (string * json)) : option json :=
  match kvs with
  | [] => None
  | (k', v) :: kvs' => if (k' =? k)%string then Some v else assoc k kvs'
  end.

(** [o.get(k, dflt)]: only a dict has the method. *)
Definition py_get (o : json) (k : string) (dflt : json) : result json :=
  match o with
  | JDict kvs =>
      match assoc k kvs with
      | Some v => Ok v
      | None => Ok dflt
      end
  | _ => Err AttributeError
  end.

(** [o[k]] for a string [k]. *)
Definition py_getitem (o : json) (k : string) : result json :=
  match o with
  | JDict kvs =>
      match assoc k kvs with
      | Some v => Ok v
      | None => Err (KeyError (JStr k))
      end
  | _ => Err TypeError
  end.

Definition is_cont (c : ascii) : bool :=
  ((128 <=? N_of_ascii c) && (N_of_ascii c <? 192))%N.

(** The continuation bytes the string starts with, and the characters of
    the rest. *)
Fixpoint split_conts (s : string) : string * list string :=
  match s with
  | EmptyString => (EmptyString, [])
  | String c s' =>
      let '(p, chs) := split_conts s' in
      if is_cont c then (String c p, chs) else (EmptyString, String c p :: chs)
  end.

(** The characters (code points) of a UTF-8 string. *)
Definition utf8_chars (s : string) : list string :=
  let '(p, chs) := split_conts s in
  match p with
  | EmptyString => chs
  | _ => p :: chs
  end.

(** What a [for] loop over [o] visits. *)
Definition py_iter (o : json) : result (list json) :=
  match o with
  | JList xs => Ok xs
  | JStr s => Ok (map JStr (utf8_chars s))
  | JDict kvs => Ok (map (fun kv => JStr (fst kv)) kvs)
  | _ => Err TypeError
  end.

(** [o[0]] *)
Definition py_getitem0 (o : json) : result json :=
  match o with
  | JList xs =>
      match xs with
      | x :: _ => Ok x
      | [] => Err IndexError
      end
  | JStr s =>
      match utf8_chars s with
      | c :: _ => Ok (JStr c)
      | [] => Err IndexError
      end
  | JDict _ => Err (KeyError (JInt 0))
  | _ => Err TypeError
  end.

Definition as_num (v : json) : option Z :=
  match v with
  | JInt n => Some n
  | JBool b => Some (if b then 1 else 0)
  | _ => None
  end.

(** [a == b] *)
Fixpoint py_eq (a b : json) {struct a} : bool :=
  match a, b with
  | JNull, JNull => true
  | JStr s, JStr t => (s =? t)%string
  | JList xs, JList ys =>
      (fix go (xs ys : list json) : bool :=
         match xs, ys with
         | [], [] => true
         | x :: xs', y :: ys' => py_eq x y && go xs' ys'
         | _, _ => false
         end) xs ys
  | JDict kvs, JDict kvs' =>
      (List.length kvs =? List.length kvs')%nat &&
      (fix go (l : list (string * json)) : bool :=
         match l with
         | [] => true
         | (k, v) :: l' =>
             match assoc k kvs' with
             | Some v' => py_eq v v' && go l'
             | None => false
             end
         end) kvs
  | _, _ =>
      match as_num a, as_num b with
      | Some x, Some y => x =? y
      | _, _ => false
      end
  end.

(** [a < b]: numbers with numbers, strings with strings, lists with lists. *)
Fixpoint py_lt (a b : json) {struct a} : result bool :=
  match a, b with
  | JStr s, JStr t => Ok (String.ltb s t)
  | JList xs, JList ys =>
      (fix go (xs ys : list json) : result bool :=
         match xs, ys with
         | [], [] => Ok false
         | [], _ :: _ => Ok true
         | _ :: _, [] => Ok false
         | x :: xs', y :: ys' => if py_eq x y then go xs' ys' else py_lt x y
         end) xs ys
  | _, _ =>
      match as_num a, as_num b with
      | Some x, Some y => Ok (x <? y)
      | _, _ => Err TypeError
      end
  end.

Definition str_of_int (n : Z) : string :=
  DecimalString.NilZero.string_of_int (Z.to_int n).

Fixpoint join (sep : string) (l : list string) : string :=
  match l with
  | [] => ""
  | [s] => s
  | s :: l' => (s ++ sep ++ join sep l')%string
  end.

Section Repr.

Context {R : StrRepr}.

(** [repr(v)] *)
Fixpoint py_repr (v : json) : string :=
  match v with
  | JNull => "None"
  | JBool true => "True"
  | JBool false => "False"
  | JInt n => str_of_int n
  | JStr s => repr_str s
  | JList xs => ("[" ++ join ", " (map py_repr xs) ++ "]")%string
  | JDict kvs =>
      ("{" ++ join ", " (map (fun kv => repr_str (fst kv) ++ ": "
                                          ++ py_repr (snd kv)) kvs) ++ "}")%string
  end.

(** [str(v)] *)
Definition py_str (v : json) : string :=
  match v with
  | JStr s => s
  | _ => py_repr v
  end.

End Repr.

(** ** The converter *)

(** Restyaboard label colour -> (trello_color, label_name). *)
Definition COLOR_MAPPING : list (string * (string * string)) :=
  [("#0091ff", ("blue", "INFO"));
   ("#baa1e6", ("purple", "FETAL"));
   ("#f47564", ("red", "CRITICAL"));
   ("#f7b09c", ("pink", "ERROR"));
   ("#ffce54", ("orange", "WARNING"))].

Fixpoint palette_find (hex : string) (m : list (string * (string * string)))
  : option (string * string) :=
  match m with
  | [] => None
  | (k, v) :: m' => if (k =? hex)%string then Some v else palette_find hex m'
  end.

(** [COLOR_MAPPING.get(color_hex, {})]: [None] stands for the empty dict; a
    list or a dict is not hashable. *)
Definition color_mapping_get (color_hex : json)
  : result (option (string * string)) :=
  match color_hex with
  | JStr s => Ok (palette_find s COLOR_MAPPING)
  | JList _ | JDict _ => Err TypeError
  | _ => Ok None
  end.

(** The canonical board label, the one object the script mutates after
    creating it. *)
Record TargetLabel : Type := mkLabel {
  lbl_id : string;
  lbl_idBoard : string;
  lbl_name : string;
  lbl_color : string;
  lbl_uses : Z
}.

Definition label_key : Type := (string * string)%type.

Definition key_eqb (a b : label_key) : bool :=
  ((fst a =? fst b) && (snd a =? snd b))%string.

(** [board_labels_dict]: keys in insertion order. *)
Definition labels_dict : Type := list (label_key * TargetLabel).

Fixpoint labels_find (key : label_key) (d : labels_dict) : option TargetLabel :=
  match d with
  | [] => None
  | (k, l) :: d' => if key_eqb k key then Some l else labels_find key d'
  end.

(** The object stored under [key] replaced by [l]: how a mutation of the
    shared label object shows in the dict. *)
Fixpoint labels_set (key : label_key) (l : TargetLabel) (d : labels_dict)
  : labels_dict :=
  match d with
  | [] => []
  | (k, l0) :: d' =>
      if key_eqb k key then (k, l) :: d' else (k, l0) :: labels_set key l d'
  end.

Definition incr_uses (l : TargetLabel) : TargetLabel :=
  mkLabel (lbl_id l) (lbl_idBoard l) (lbl_name l) (lbl_color l) (lbl_uses l + 1).

(** The dict written into a card for a label: a copy of the field values. *)
Definition label_json (l : TargetLabel) : json :=
  JDict [("id", JStr (lbl_id l));
         ("idBoard", JStr (lbl_idBoard l));
         ("name", JStr (lbl_name l));
         ("color", JStr (lbl_color l));
         ("uses", JInt (lbl_uses l))].

(** [s.endswith("Z")] *)
Fixpoint endswith_Z (s : string) : bool :=
  match s with
  | EmptyString => false
  | String c EmptyString => (c =? "Z")%char
  | String _ s' => endswith_Z s'
  end.

Definition normalize_due (due_value : json) : result json :=
  if truthy due_value then
    match due_value with
    | JStr s => if negb (endswith_Z s) then Ok (JStr (s ++ "Z")%string) else Ok due_value
    | _ => Err AttributeError
    end
  else Ok due_value.

(** [for i, x in enumerate(xs, start): s = body i x s] *)
Fixpoint for_enumerate {S : Type} (body : Z -> json -> S -> result S)
         (start : Z) (xs : list json) (s : S) : result S :=
  match xs with
  | [] => Ok s
  | x :: xs' => s' <- body start x s ;; for_enumerate body (start + 1) xs' s'
  end.

(** [for x in xs: s = body x s] *)
Fixpoint for_each {S : Type} (body : json -> S -> result S)
         (xs : list json) (s : S) : result S :=
  match xs with
  | [] => Ok s
  | x :: xs' => s' <- body x s ;; for_each body xs' s'
  end.

(** The key function of the sort, applied to every element first. *)
Fixpoint position_keys (xs : list json) : result (list (json * json)) :=
  match xs with
  | [] => Ok []
  | x :: xs' =>
      k <- py_get x "position" (JInt 0) ;;
      r <- position_keys xs' ;;
      Ok ((k, x) :: r)
  end.

(** [kx] placed after the elements whose key is smaller than its own. *)
Fixpoint insert_keyed (kx : json * json) (l : list (json * json))
  : result (list (json * json)) :=
  match l with
  | [] => Ok [kx]
  | ky :: l' =>
      b <- py_lt (fst ky) (fst kx) ;;
      if b then (r <- insert_keyed kx l' ;; Ok (ky :: r)) else Ok (kx :: l)
  end.

(** A stable sort that compares keys with [<] only, as [list.sort] does. *)
Fixpoint sort_keyed (l : list (json * json)) : result (list (json * json)) :=
  match l with
  | [] => Ok []
  | kx :: l' => r <- sort_keyed l' ;; insert_keyed kx r
  end.

(** [sorted(data, key=lambda x: x.get("position", 0))] *)
Definition sorted_by_position (data : json) : result (list json) :=
  xs <- py_iter data ;;
  ks <- position_keys xs ;;
  r <- sort_keyed ks ;;
  Ok (map snd r).

Definition list_pos_base : Z := 16384.
Definition card_pos_base : Z := 16384.
Definition id_organization : string := "5b7a154eae8467f69089c4".
Definition id_member_creator : string := "596d59cbd14b2ed4c5909b".

(** The variables of [main] that its loops update. *)
Record state : Type := mkState {
  board_labels_dict : labels_dict;
  ticks : nat;
  card_counter : Z;
  lists : list json;
  cards : list json;
  checklists_global : list json
}.

Definition perChecklist_limit : json :=
  JDict [("status", JStr "ok"); ("disableAt", JInt 200); ("warnAt", JInt 160)].

Section Converter.

Context {R : StrRepr}.

(** The wall clock: [utcnow n] is what the [n]-th call (from 0) of
    [datetime.datetime.utcnow().isoformat()] returns in this run. *)
Variable utcnow : nat -> string.

Definition gen_trello_id (value : json) : string :=
  substring 0 24 (MD5.hexdigest (py_str value)).

Definition gen_short_link (value : string) : string :=
  substring 0 8 (MD5.hexdigest value).

(** Returns the key of the label (the reference the script holds), the
    label stored under it, and the dict. *)
Definition get_or_create_board_label (board_id : string)
           (restya_label : json) (d : labels_dict)
  : result (label_key * TargetLabel * labels_dict) :=
  label_id_raw <- py_get restya_label "id" (JStr "unknownLabel") ;;
  color_hex <- py_get restya_label "color" (JStr "") ;;
  mapped <- color_mapping_get color_hex ;;
  let trello_color := match mapped with Some m => fst m | None => "" end in
  let label_name := match mapped with Some m => snd m | None => "" end in
  let key : label_key :=
    if (trello_color =? "")%string && (label_name =? "")%string
    then ("green", "正常")
    else (trello_color, label_name) in
  match labels_find key d with
  | Some l => Ok (key, l, d)
  | None =>
      let l := mkLabel (gen_trello_id label_id_raw) board_id
                       (snd key) (fst key) 0 in
      Ok (key, l, d ++ [(key, l)])
  end.

(** One turn of the loop over [cards_labels]; the state is
    [(board_labels_dict, id_labels, card_labels)]. *)
Definition label_step (board_id : string) (lb : json)
           (s : labels_dict * list json * list json)
  : result (labels_dict * list json * list json) :=
  let '(d, id_labels, card_labels) := s in
  '(key, label_obj, d1) <- get_or_create_board_label board_id lb d ;;
  let label_obj' := incr_uses label_obj in
  let d2 := labels_set key label_obj' d1 in
  Ok (d2, id_labels ++ [JStr (lbl_id label_obj')],
      card_labels ++ [label_json label_obj']).

Definition card_labels_loop (board_id : string) (card_item : json)
           (d : labels_dict)
  : result (labels_dict * list json * list json) :=
  v <- py_get card_item "cards_labels" JNull ;;
  if truthy v then
    v' <- py_getitem card_item "cards_labels" ;;
    lbs <- py_iter v' ;;
    for_each (label_step board_id) lbs (d, [], [])
  else Ok (d, [], []).

(** One turn of the loop over [checklists_items]; the state is
    [check_items]. *)
Definition check_item_step (ch_id : string) (cii : Z) (ci_item : json)
           (check_items : list json) : result (list json) :=
  ci_id_raw <- py_getitem ci_item "id" ;;
  let ci_id := gen_trello_id ci_id_raw in
  is_completed <- py_get ci_item "is_completed" (JInt 0) ;;
  let state := if py_eq is_completed (JInt 1)
               then "complete" else "incomplete" in
  name <- py_get ci_item "name" (JStr "") ;;
  Ok (check_items ++
      [JDict [("id", JStr ci_id);
              ("name", name);
              ("pos", JInt (16384 * cii));
              ("state", JStr state);
              ("due", JNull);
              ("dueReminder", JNull);
              ("idMember", JNull);
              ("idChecklist", JStr ch_id);
              ("nameData", JDict [("emoji", JDict [])])]]).

(** One turn of the loop over [cards_checklists]; the state is
    [(checklists_global, id_checklists)]. *)
Definition checklist_step (board_id card_id : string) (ch_i : Z) (ch : json)
           (s : list json * list json) : result (list json * list json) :=
  let '(checklists_global, id_checklists) := s in
  ch_id_raw <- py_getitem ch "id" ;;
  let ch_id := gen_trello_id ch_id_raw in
  let ch_pos := 16384 * ch_i in
  v <- py_get ch "checklists_items" JNull ;;
  check_items <-
    (if truthy v then
       v' <- py_getitem ch "checklists_items" ;;
       items <- py_iter v' ;;
       for_enumerate (check_item_step ch_id) 1 items []
     else Ok []) ;;
  name <- py_get ch "name" (JStr "") ;;
  Ok (checklists_global ++
      [JDict [("id", JStr ch_id);
              ("name", py_or name (JStr "Checklist"));
              ("idBoard", JStr board_id);
              ("idCard", JStr card_id);
              ("pos", JInt ch_pos);
              ("limits",
               JDict [("checkItems",
                       JDict [("perChecklist", perChecklist_limit)])]);
              ("checkItems", JList check_items);
              ("creationMethod", JNull)]],
      id_checklists ++ [JStr ch_id]).

Definition card_checklists_loop (board_id card_id : string)
           (card_item : json) (checklists_global : list json)
  : result (list json * list json) :=
  v <- py_get card_item "cards_checklists" JNull ;;
  if truthy v then
    v' <- py_getitem card_item "cards_checklists" ;;
    chs <- py_iter v' ;;
    for_enumerate (checklist_step board_id card_id) 1 chs
                  (checklists_global, [])
  else Ok (checklists_global, []).

Definition default_cover : json :=
  JDict [("idAttachment", JNull);
         ("color", JNull);
         ("idUploadedBackground", JNull);
         ("size", JStr "normal");
         ("brightness", JStr "dark");
         ("idPlugin", JNull)].

(** One turn of the loop over the cards of a list. *)
Definition card_step (board_id list_id : string) (list_pos : Z)
           (ci : Z) (card_item : json) (st : state) : result state :=
  card_id_raw <- py_getitem card_item "id" ;;
  let card_id := gen_trello_id card_id_raw in
  let cpos := list_pos + ci * card_pos_base in
  description <- py_get card_item "description" (JStr "") ;;
  let desc := py_or description (JStr "") in
  due_date <- py_get card_item "due_date" JNull ;;
  due_value <- normalize_due due_date ;;
  '(d, id_labels, card_labels) <-
    card_labels_loop board_id card_item (board_labels_dict st) ;;
  '(checklists, id_checklists) <-
    card_checklists_loop board_id card_id card_item (checklists_global st) ;;
  let card_short_link := gen_short_link card_id in
  name <- py_get card_item "name" (JStr "") ;;
  is_archived <- py_get card_item "is_archived" (JInt 0) ;;
  let card :=
    JDict [("id", JStr card_id);
           ("name", py_or name (JStr ""));
           ("desc", desc);
           ("closed", JBool (py_eq is_archived (JInt 1)));
           ("idBoard", JStr board_id);
           ("idList", JStr list_id);
           ("pos", JInt cpos);
           ("idShort", JInt (card_counter st));
           ("shortLink", JStr card_short_link);
           ("idLabels", JList id_labels);
           ("labels", JList card_labels);
           ("idChecklists", JList id_checklists);
           ("due", due_value);
           ("dueComplete", JBool false);
           ("dateLastActivity", JStr (utcnow (ticks st) ++ "Z")%string);
           ("descData", JDict [("emoji", JDict [])]);
           ("idAttachmentCover", JNull);
           ("idMembersVoted", JList []);
           ("idOrganization", JStr id_organization);
           ("attachments", JList []);
           ("subscribed", JBool false);
           ("cover", default_cover);
           ("manualCoverAttachment", JBool false);
           ("isTemplate", JBool false);
           ("cardRole", JNull);
           ("creationMethod", JNull);
           ("customFieldItems", JList []);
           ("pluginData", JList [])] in
  Ok (mkState d (S (ticks st)) (card_counter st + 1) (lists st)
              (cards st ++ [card]) checklists).

(** One turn of the loop over the sorted lists. *)
Definition list_step (board_id : string) (li : Z) (list_item : json)
           (st : state) : result state :=
  list_id_raw <- py_getitem list_item "id" ;;
  let list_id := gen_trello_id list_id_raw in
  let list_pos := list_pos_base * li in
  name <- py_get list_item "name" (JStr "") ;;
  is_archived <- py_get list_item "is_archived" (JInt 0) ;;
  let lst :=
    JDict [("id", JStr list_id);
           ("name", py_or name (JStr ""));
           ("closed", JBool (py_eq is_archived (JInt 1)));
           ("idBoard", JStr board_id);
           ("pos", JInt list_pos);
           ("idOrganization", JStr id_organization)] in
  let st1 := mkState (board_labels_dict st) (ticks st) (card_counter st)
                     (lists st ++ [lst]) (cards st) (checklists_global st) in
  cards_field <- py_get list_item "cards" JNull ;;
  cards_data <- py_iter (py_or cards_field (JList [])) ;;
  for_enumerate (card_step board_id list_id list_pos) 1 cards_data st1.

Definition initial_state : state := mkState [] 0 1 [] [] [].

Definition limit (disableAt warnAt : Z) : json :=
  JDict [("status", JStr "ok"); ("disableAt", JInt disableAt);
         ("warnAt", JInt warnAt)].

Definition labelNames : json :=
  JDict [("green", JStr ""); ("yellow", JStr ""); ("orange", JStr "");
         ("red", JStr ""); ("purple", JStr ""); ("blue", JStr "")].

(** The board written when the input has no data. *)
Definition empty_board : json :=
  JDict [("id", JStr (gen_trello_id (JInt 12345)));
         ("name", JStr "TrelloBoard");
         ("desc", JStr "");
         ("closed", JBool false);
         ("idOrganization", JStr "5b7a154eae842267f69089c4");
         ("pinned", JBool false);
         ("url", JStr "https://trello.com/b/ABCDEFGH/TrelloBoard");
         ("shortLink", JStr "ABCDEFGH");
         ("shortUrl", JStr "https://trello.com/b/ABCDEFGH");
         ("subscribed", JBool false);
         ("labelNames", labelNames);
         ("prefs",
          JDict [("permissionLevel", JStr "org");
                 ("hideVotes", JBool false);
                 ("voting", JStr "disabled");
                 ("comments", JStr "members");
                 ("invitations", JStr "members");
                 ("selfJoin", JBool true);
                 ("cardCovers", JBool true);
                 ("cardAging", JStr "regular");
                 ("calendarFeedEnabled", JBool false);
                 ("background", JStr "green");
                 ("backgroundColor", JStr "#519839");
                 ("backgroundTile", JBool false);
                 ("backgroundBrightness", JStr "dark");
                 ("canBePublic", JBool true);
                 ("canBeEnterprise", JBool true);
                 ("canBeOrg", JBool true);
                 ("canBePrivate", JBool true);
                 ("canInvite", JBool true)]);
         ("members", JList []);
         ("lists", JList []);
         ("cards", JList []);
         ("labels", JList []);
         ("actions", JList []);
         ("checklists", JList []);
         ("customFields", JList [])].

Definition prefs : json :=
  JDict [("permissionLevel", JStr "org");
         ("hideVotes", JBool false);
         ("voting", JStr "disabled");
         ("comments", JStr "members");
         ("invitations", JStr "members");
         ("selfJoin", JBool true);
         ("cardCovers", JBool true);
         ("cardAging", JStr "regular");
         ("calendarFeedEnabled", JBool false);
         ("background", JStr "green");
         ("backgroundColor", JStr "#519839");
         ("backgroundImage", JNull);
         ("backgroundTile", JBool false);
         ("backgroundBrightness", JStr "dark");
         ("canBePublic", JBool true);
         ("canBeEnterprise", JBool true);
         ("canBeOrg", JBool true);
         ("canBePrivate", JBool true);
         ("canInvite", JBool true)].

Definition memberships : json :=
  JList [JDict [("id", JStr (gen_trello_id (JStr "boardmember")));
                ("idMember", JStr id_member_creator);
                ("memberType", JStr "admin");
                ("unconfirmed", JBool false);
                ("deactivated", JBool false)]].

Definition limits : json :=
  JDict
    [("attachments",
      JDict [("perBoard", limit 36000 28800); ("perCard", limit 1000 800)]);
     ("boards",
      JDict [("totalMembersPerBoard", limit 1600 1280);
             ("totalAccessRequestsPerBoard", limit 4000 3200)]);
     ("cards",
      JDict [("openPerBoard", limit 5000 4000);
             ("openPerList", limit 5000 4000);
             ("totalPerBoard", limit 2000000 1600000);
             ("totalPerList", limit 1000000 800000)]);
     ("checklists",
      JDict [("perBoard", limit 1800000 1440000);
             ("perCard", limit 500 400)]);
     ("checkItems", JDict [("perChecklist", limit 200 160)]);
     ("customFields", JDict [("perBoard", limit 50 40)]);
     ("customFieldOptions", JDict [("perField", limit 50 40)]);
     ("labels", JDict [("perBoard", limit 1000 800)]);
     ("lists",
      JDict [("openPerBoard", limit 500 400);
             ("totalPerBoard", limit 3000 2400)]);
     ("stickers", JDict [("perCard", limit 70 56)]);
     ("reactions",
      JDict [("perAction", limit 900 720);
             ("uniquePerAction", limit 17 14)])].

(** The final dict, from the board id and the state the loops left. *)
Definition assemble (board_id : string) (st : state) : json :=
  let board_labels := map (fun kl => label_json (snd kl))
                          (board_labels_dict st) in
  JDict
    [("id", JStr board_id);
     ("nodeId", JStr ("ari:cloud:trello::board/workspace/"
                        ++ id_organization ++ "/" ++ board_id)%string);
     ("name", JStr "RestyaBoard");
     ("desc", JStr "");
     ("descData", JNull);
     ("closed", JBool false);
     ("dateClosed", JNull);
     ("idOrganization", JStr id_organization);
     ("idEnterprise", JNull);
     ("limits", limits);
     ("pinned", JBool false);
     ("starred", JBool false);
     ("url", JStr "https://trello.com/b/CJYpRTwW/xxx");
     ("prefs", prefs);
     ("shortLink", JStr "CJYpRTwW");
     ("subscribed", JBool false);
     ("labelNames", labelNames);
     ("powerUps", JList []);
     ("dateLastActivity", JStr (utcnow (ticks st) ++ "Z")%string);
     ("dateLastView", JStr (utcnow (S (ticks st)) ++ "Z")%string);
     ("shortUrl", JStr "https://trello.com/b/CJYpRTwW");
     ("idTags", JList []);
     ("datePluginDisable", JNull);
     ("creationMethod", JNull);
     ("ixUpdate", JStr "63");
     ("templateGallery", JNull);
     ("enterpriseOwned", JBool false);
     ("idBoardSource", JNull);
     ("premiumFeatures",
      JList [JStr "additionalBoardBackgrounds"; JStr "additionalStickers";
             JStr "customBoardBackgrounds"; JStr "customEmoji";
             JStr "customStickers"; JStr "plugins"]);
     ("idMemberCreator", JStr id_member_creator);
     ("type", JNull);
     ("actions", JList []);
     ("cards", JList (cards st));
     ("labels", JList board_labels);
     ("lists", JList (lists st));
     ("members", JList []);
     ("checklists", JList (checklists_global st));
     ("customFields", JList []);
     ("memberships", memberships);
     ("pluginData", JList [])].

(** The loops of [main] on a non-empty document: the board id and the
    final state. *)
Definition convert (restya_data : json) : result (string * state) :=
  data <- py_getitem restya_data "data" ;;
  first_list <- py_getitem0 data ;;
  board_id_num <- py_get first_list "board_id" (JInt 12345) ;;
  let board_id := gen_trello_id board_id_num in
  data' <- py_getitem restya_data "data" ;;
  data_lists_sorted <- sorted_by_position data' ;;
  st <- for_enumerate (list_step board_id) 1 data_lists_sorted
                      initial_state ;;
  Ok (board_id, st).

(** [main], from the parsed input to the dict handed to [json.dump]. *)
Definition main (restya_data : json) : result json :=
  data <- py_get restya_data "data" JNull ;;
  if negb (truthy data) then Ok empty_board
  else
    '(board_id, st) <- convert restya_data ;;
    Ok (assemble board_id st).

End Converter.

Arguments gen_trello_id {R} value : simpl never.
Arguments gen_short_link value : simpl never.


(** ** Vocabulary of the properties *)

(** The value a dict holds under a key. *)
Definition field (k : string) (o : json) : option json :=
  match o with
  | JDict kvs => assoc k kvs
  | _ => None
  end.

Definition map_result {A B : Type} (f : A -> B) (r : result A) : result B :=
  match r with
  | Ok a => Ok (f a)
  | Err e => Err e
  end.

(** The (color, name) pair a canonical label stands for. *)
Definition key_of (l : TargetLabel) : label_key := (lbl_color l, lbl_name l).

(** The [uses] of the canonical label of a key, 0 while there is none. *)
Definition uses_of (key : label_key) (d : labels_dict) : Z :=
  match labels_find key d with
  | Some l => lbl_uses l
  | None => 0
  end.

(** The pair a source label maps to: its palette entry, else the default
    pair. *)
Definition mapped_key (lb : json) : label_key :=
  match field "color" lb with
  | Some (JStr s) =>
      match palette_find s COLOR_MAPPING with
      | Some m => m
      | None => ("green", "正常")
      end
  | _ => ("green", "正常")
  end.

(** The seed of a label's id. *)
Definition label_seed (lb : json) : json :=
  match field "id" lb with
  | Some v => v
  | None => JStr "unknownLabel"
  end.

Fixpoint count_key (key : label_key) (ks : list label_key) : Z :=
  match ks with
  | [] => 0
  | k :: ks' => (if key_eqb k key then 1 else 0) + count_key key ks'
  end.

(** Every entry of the dict stands for the pair it is stored under. *)
Definition dict_keyed (d : labels_dict) : Prop :=
  Forall (fun kl => key_of (snd kl) = fst kl) d.

(** What a loop visits, nothing when the value cannot be iterated. *)
Definition elements (v : json) : list json :=
  match py_iter v with
  | Ok xs => xs
  | Err _ => []
  end.

(** The label references of a source card, in source order. *)
Definition label_refs (card_item : json) : list json :=
  match field "cards_labels" card_item with
  | Some v => if truthy v then elements v else []
  | None => []
  end.

(** The cards of a source list, in source order. *)
Definition cards_of (list_item : json) : list json :=
  match field "cards" list_item with
  | Some v => if truthy v then elements v else []
  | None => []
  end.

(** All label references of the board, in traversal order. *)
Definition all_label_refs (sorted : list json) : list json :=
  flat_map (fun list_item => flat_map label_refs (cards_of list_item)) sorted.

(** The sort key of a source list when it is a number. *)
Definition position_of (list_item : json) : option Z :=
  match list_item with
  | JDict kvs =>
      match assoc "position" kvs with
      | Some v => as_num v
      | None => Some 0
      end
  | _ => None
  end.





(** The identifier of a source record. *)
Definition id_of (x : json) : json :=
  match field "id" x with
  | Some v => v
  | None => JNull
  end.

Fixpoint enumerate (start : Z) (xs : list json) : list (Z * json) :=
  match xs with
  | [] => []
  | x :: xs' => (start, x) :: enumerate (start + 1) xs'
  end.

Definition as_int (o : option json) : option Z :=
  match o with
  | Some (JInt n) => Some n
  | _ => None
  end.

Definition pos_field (o : json) : option Z := as_int (field "pos" o).

Section Expected.

Context {R : StrRepr}.

(** id and pos of the target list of the [li]-th sorted source list. *)
Definition expected_list (e : Z * json) : option json * option Z :=
  (Some (JStr (gen_trello_id (id_of (snd e)))), Some (16384 * fst e)).

(** id, idList and pos of the target card of the [ci]-th card of a list. *)
Definition expected_card (list_id : string) (list_pos : Z) (c : Z * json)
  : option json * option json * option Z :=
  (Some (JStr (gen_trello_id (id_of (snd c)))),
   Some (JStr list_id),
   Some (list_pos + fst c * 16384)).

(** The same for all the cards of the [li]-th sorted list. *)
Definition expected_cards (e : Z * json)
  : list (option json * option json * option Z) :=
  map (expected_card (gen_trello_id (id_of (snd e))) (16384 * fst e))
      (enumerate 1 (cards_of (snd e))).

(** The canonical label a reference to [lb] creates. *)
Definition new_label (board_id : string) (lb : json) : TargetLabel :=
  mkLabel (gen_trello_id (label_seed lb)) board_id
          (snd (mapped_key lb)) (fst (mapped_key lb)) 1.

(** The dict after one more reference. *)
Definition note_ref (board_id : string) (d : labels_dict) (lb : json)
  : labels_dict :=
  match labels_find (mapped_key lb) d with
  | Some l => labels_set (mapped_key lb) (incr_uses l) d
  | None => d ++ [(mapped_key lb, new_label board_id lb)]
  end.

End Expected.

Definition card_view (c : json) : option json * option json * option Z :=
  (field "id" c, field "idList" c, pos_field c).

Definition list_view (l : json) : option json * option Z :=
  (field "id" l, pos_field l).

(** [d[k] = v] on a dict; any other value is left alone. *)
Fixpoint assoc_set (k : string) (v : json) (kvs : list (string * json))
  : list (string * json) :=
  match kvs with
  | [] => [(k, v)]
  | (k', v') :: kvs' =>
      if (k' =? k)%string then (k', v) :: kvs'
      else (k', v') :: assoc_set k v kvs'
  end.

Definition set_field (k : string) (v : json) (o : json) : json :=
  match o with
  | JDict kvs => JDict (assoc_set k v kvs)
  | _ => o
  end.

(** A function applied to the value under a key, when there is one. *)
Fixpoint assoc_update (k : string) (f : json -> json)
         (kvs : list (string * json)) : list (string * json) :=
  match kvs with
  | [] => []
  | (k', v') :: kvs' =>
      if (k' =? k)%string then (k', f v') :: kvs'
      else (k', v') :: assoc_update k f kvs'
  end.

Definition update_field (k : string) (f : json -> json) (o : json) : json :=
  match o with
  | JDict kvs => JDict (assoc_update k f kvs)
  | _ => o
  end.

Definition masked : json := JStr "<masked>".

(** The two timestamps of the board masked. *)
Definition mask_board (out : json) : json :=
  set_field "dateLastActivity" masked (set_field "dateLastView" masked out).

Definition mask_card (c : json) : json :=
  match field "dateLastActivity" c with
  | Some _ => set_field "dateLastActivity" masked c
  | None => c
  end.

Definition mask_cards (v : json) : json :=
  match v with
  | JList cs => JList (map mask_card cs)
  | _ => v
  end.

(** The two timestamps of the board and the timestamp of every card
    masked. *)
Definition mask_all (out : json) : json :=
  update_field "cards" mask_cards (mask_board out).

Definition is_hex_char (c : ascii) : bool :=
  existsb (Ascii.eqb c) (list_ascii_of_string "0123456789abcdef").

Fixpoint is_hex (s : string) : bool :=
  match s with
  | EmptyString => true
  | String c s' => is_hex_char c && is_hex s'
  end.

(** [s] ends in "Z". *)
Definition ends_in_Z (s : string) : Prop := exists p, s = (p ++ "Z")%string.


(** [n] consecutive integers from [start]. *)
Fixpoint count_from (start : Z) (n : nat) : list Z :=
  match n with
  | O => []
  | S n' => start :: count_from (start + 1) n'
  end.

(** The source lists in the order [main] visits them: sorted, and none
    when the document has no data. *)
Definition sorted_lists (doc : json) : list json :=
  match field "data" doc with
  | Some data =>
      if truthy data then
        match sorted_by_position data with
        | Ok sorted => sorted
        | Err _ => []
        end
      else []
  | None => []
  end.





(** Two results that raise the same exception, or return related values. *)
Inductive rel_result {A : Type} (r : A -> A -> Prop)
  : result A -> result A -> Prop :=
| rel_ok (a b : A) : r a b -> rel_result r (Ok a) (Ok b)
| rel_err (e : exn) : rel_result r (Err e) (Err e).

(** Two states of [main] that differ at most in the timestamps of the
    cards. *)
Definition same_but_stamps (st1 st2 : state) : Prop :=
  board_labels_dict st1 = board_labels_dict st2
  /\ ticks st1 = ticks st2
  /\ card_counter st1 = card_counter st2
  /\ lists st1 = lists st2
  /\ map mask_card (cards st1) = map mask_card (cards st2)
  /\ checklists_global st1 = checklists_global st2.

(** *** Shape of a document, and presence of the identifiers *)

Definition is_dict (x : json) : bool :=
  match x with
  | JDict _ => true
  | _ => false
  end.



(** The checklists of a source card, in source order. *)
Definition checklists_of (card_item : json) : list json :=
  match field "cards_checklists" card_item with
  | Some v => if truthy v then elements v else []
  | None => []
  end.

(** The check-items of a source checklist, in source order. *)
Definition items_of (ch : json) : list json :=
  match field "checklists_items" ch with
  | Some v => if truthy v then elements v else []
  | None => []
  end.

(** The list records of a document, in input order. *)
Definition data_of (doc : json) : list json :=
  match field "data" doc with
  | Some v => if truthy v then elements v else []
  | None => []
  end.












(** ** Sample documents *)

Module Samples.

(** A clock whose [n]-th reading is ["T<n>"]. *)
Definition clock_a (n : nat) : string := ("T" ++ str_of_int (Z.of_nat n))%string.

(** Another clock, which never agrees with [clock_a]. *)
Definition clock_b (n : nat) : string := ("U" ++ str_of_int (Z.of_nat n))%string.

Definition label (id : Z) (color : string) : json :=
  JDict [("id", JInt id); ("color", JStr color)].

(** One card that references two source labels of the same colour. *)
Definition card_two_refs : json :=
  JDict [("id", JInt 10); ("name", JStr "Task A");
         ("cards_labels", JList [label 5 "#0091ff"; label 6 "#0091ff"])].

(** One list with one card. *)
Definition doc_one_card : json :=
  JDict [("data",
          JList [JDict [("id", JInt 1); ("name", JStr "To Do");
                        ("position", JInt 1); ("board_id", JInt 7);
                        ("cards", JList [card_two_refs])]])].



(** Two lists out of order, the first without [board_id]; three cards. *)
Definition doc_two_lists : json :=
  JDict [("data",
          JList [JDict [("id", JInt 2); ("position", JInt 5);
                        ("cards",
                         JList [JDict [("id", JInt 21);
                                       ("due_date", JStr "2024-05-01T10:00:00");
                                       ("cards_labels",
                                        JList [label 5 "#ffce54";
                                               label 9 "#000000"])]])];
                 JDict [("id", JInt 1); ("position", JInt 2);
                        ("cards",
                         JList [JDict [("id", JInt 11);
                                       ("cards_labels",
                                        JList [label 6 "#ffce54"])];
                                JDict [("id", JInt 12)]])]])].

End Samples.



(** ** Vocabulary of the further properties *)

(** The record belongs to the board. *)
Definition has_board (board_id : string) (o : json) : Prop :=
  field "idBoard" o = Some (JStr board_id).

(** The list held under a key, nothing when there is none. *)
Definition list_field (k : string) (o : json) : list json :=
  match field k o with
  | Some (JList xs) => xs
  | _ => []
  end.

(** The ids of the records of a collection. *)
Definition ids_of (xs : list json) : list (option json) :=
  map (field "id") xs.

(** A sort key that is a number, a string or null. *)
Definition flat_key (k : json) : bool :=
  match k with
  | JNull | JBool _ | JInt _ | JStr _ => true
  | _ => false
  end.

Definition is_num (k : json) : bool :=
  match as_num k with
  | Some _ => true
  | None => false
  end.

Definition is_str (k : json) : bool :=
  match k with
  | JStr _ => true
  | _ => false
  end.

(** The value a source record holds under [position], 0 by default. *)
Definition position_key (x : json) : json :=
  match field "position" x with
  | Some v => v
  | None => JInt 0
  end.

(** [v == 1] for a JSON value: the integer 1 or [true]. *)
Definition is_one (v : json) : bool :=
  match as_num v with
  | Some n => n =? 1
  | None => false
  end.

(** The fields of a source record the flags are read from. *)
Definition flag (k : string) (x : json) : json :=
  match field k x with
  | Some v => v
  | None => JInt 0
  end.

(** id, idCard and pos of a target checklist. *)
Definition checklist_view (o : json) : option json * option json * option Z :=
  (field "id" o, field "idCard" o, pos_field o).

(** id, idChecklist and pos of a target check-item. *)
Definition item_view (o : json) : option json * option json * option Z :=
  (field "id" o, field "idChecklist" o, pos_field o).

Section ExpectedChecklists.

Context {R : StrRepr}.

(** The view of the target checklist of the [ch_i]-th checklist of a
    card. *)
Definition expected_checklist (card_id : string) (e : Z * json)
  : option json * option json * option Z :=
  (Some (JStr (gen_trello_id (id_of (snd e)))),
   Some (JStr card_id),
   Some (16384 * fst e)).

(** The view of the target check-item of the [cii]-th item of a
    checklist. *)
Definition expected_item (ch_id : string) (e : Z * json)
  : option json * option json * option Z :=
  (Some (JStr (gen_trello_id (id_of (snd e)))),
   Some (JStr ch_id),
   Some (16384 * fst e)).

(** The target checklist has the id of its source checklist, and its
    check-items are those of the source checklist, in order. *)
Definition items_match (ch out_ch : json) : Prop :=
  field "id" out_ch = Some (JStr (gen_trello_id (id_of ch)))
  /\ map item_view (list_field "checkItems" out_ch)
     = map (expected_item (gen_trello_id (id_of ch)))
           (enumerate 1 (items_of ch)).

End ExpectedChecklists.

(** The ids of the canonical labels of a dict, as the board lists them. *)
Definition label_ids (d : labels_dict) : list json :=
  map (fun kl => JStr (lbl_id (snd kl))) d.

(** Every canonical label of the dict belongs to the board. *)
Definition labels_on_board (board_id : string) (d : labels_dict) : Prop :=
  Forall (fun kl => lbl_idBoard (snd kl) = board_id) d.

(** Every record of the state carries the board id. *)
Definition all_on_board (board_id : string) (st : state) : Prop :=
  Forall (has_board board_id) (lists st)
  /\ Forall (has_board board_id) (cards st)
  /\ Forall (has_board board_id) (checklists_global st)
  /\ labels_on_board board_id (board_labels_dict st)
  /\ Forall (fun c => Forall (has_board board_id) (list_field "labels" c))
            (cards st).

(** The references between the records of the state resolve. *)
Definition references_resolve (st : state) : Prop :=
  Forall (fun c => field "idList" c <> None
                   /\ In (field "idList" c) (ids_of (lists st)))
         (cards st)
  /\ Forall (fun ch => field "idCard" ch <> None
                       /\ In (field "idCard" ch) (ids_of (cards st)))
            (checklists_global st)
  /\ Forall (fun ch => field "id" ch <> None
                       /\ Forall (fun it => field "idChecklist" it
                                            = field "id" ch)
                                 (list_field "checkItems" ch))
            (checklists_global st)
  /\ Forall (fun c => Forall (fun i => In (Some i)
                                          (ids_of (checklists_global st)))
                             (list_field "idChecklists" c))
            (cards st)
  /\ Forall (fun c => Forall (fun i => In i (label_ids (board_labels_dict st)))
                             (list_field "idLabels" c))
            (cards st).

Module MoreSamples.

(** One list with an archived card that has a due date, two labels and a
    checklist of two items, the second completed. *)
Definition card_full : json :=
  JDict [("id", JInt 10); ("name", JStr "Task A"); ("is_archived", JInt 1);
         ("due_date", JStr "2024-05-01T10:00:00");
         ("cards_labels",
          JList [Samples.label 5 "#ffce54"; Samples.label 6 "#0091ff"]);
         ("cards_checklists",
          JList [JDict [("id", JInt 3); ("name", JStr "Steps");
                        ("checklists_items",
                         JList [JDict [("id", JInt 4); ("name", JStr "one")];
                                JDict [("id", JInt 5); ("name", JStr "two");
                                       ("is_completed", JInt 1)]])]])].

Definition doc_full : json :=
  JDict [("data",
          JList [JDict [("id", JInt 1); ("name", JStr "To Do");
                        ("position", JInt 1); ("board_id", JInt 7);
                        ("cards", JList [card_full])]])].

(** Two lists, one with a numeric position and one with a string. *)
Definition doc_mixed_positions : json :=
  JDict [("data",
          JList [JDict [("id", JInt 1); ("position", JInt 1)];
                 JDict [("id", JInt 2); ("position", JStr "2")]])].

End MoreSamples.

Section Snapshots.

Context {R : StrRepr}.

(** The canonical labels as they are when each reference of a card is
    copied into the card: one per reference, in order. *)
Fixpoint snapshots (board_id : string) (d : labels_dict)
         (refs : list json) : list TargetLabel :=
  match refs with
  | [] => []
  | lb :: rest =>
      match labels_find (mapped_key lb) (note_ref board_id d lb) with
      | Some l => l :: snapshots board_id (note_ref board_id d lb) rest
      | None => snapshots board_id (note_ref board_id d lb) rest
      end
  end.

End Snapshots.

(** The [uses] a copy shows for each reference of a card: what the
    canonical label had before the card, plus the references to its pair
    up to and including this one. *)
Fixpoint frozen_uses (base : label_key -> Z) (seen ks : list label_key)
  : list Z :=
  match ks with
  | [] => []
  | k :: ks' =>
      (base k + count_key k seen + 1) :: frozen_uses base (seen ++ [k]) ks'
  end.

(** The cards of the state are stamped with the readings of the clock in
    the order they were made, and the clock was read once per card. *)
Definition stamped (utcnow : nat -> string) (st : state) : Prop :=
  map (field "dateLastActivity") (cards st)
  = map (fun k => Some (JStr (utcnow k ++ "Z")%string))
        (seq 0 (List.length (cards st)))
  /\ ticks st = List.length (cards st).

(** The short link of a card is made from its id. *)
Definition linked (c : json) : Prop :=
  exists id,
    field "id" c = Some (JStr id)
    /\ field "shortLink" c = Some (JStr (gen_short_link id)).

(** Sort keys that [<] can compare with each other: at most one key, or
    numbers only, or strings only. *)
Definition homogeneous (ks : list json) : bool :=
  (List.length ks <=? 1)%nat || forallb is_num ks || forallb is_str ks.

(** The keys of [ks] that are not in [seen], each once, in the order of
    their first occurrence. *)
Fixpoint first_seen (seen ks : list label_key) : list label_key :=
  match ks with
  | [] => []
  | k :: ks' =>
      if existsb (key_eqb k) seen then first_seen seen ks'
      else k :: first_seen (seen ++ [k]) ks'
  end.


(** ** Tests of the MD5 model against known digests *)

Example md5_empty : MD5.hexdigest "" = "d41d8cd98f00b204e9800998ecf8427e".
Proof. vm_compute. reflexivity. Qed.

Example md5_abc : MD5.hexdigest "abc" = "900150983cd24fb0d6963f7d28e17f72".
Proof. vm_compute. reflexivity. Qed.

Example md5_12345 :
  MD5.hexdigest "12345" = "827ccb0eea8a706c4c34a16891f84e7b".
Proof. vm_compute. reflexivity. Qed.

Example md5_55_bytes :
  MD5.hexdigest "xxxxxxxxxxxxxxxxxxxxxxxxxxxxxxxxxxxxxxxxxxxxxxxxxxxxxxx"
  = "04364420e25c512fd958a70738aa8f72".
Proof. vm_compute. reflexivity. Qed.

Example md5_56_bytes :
  MD5.hexdigest "xxxxxxxxxxxxxxxxxxxxxxxxxxxxxxxxxxxxxxxxxxxxxxxxxxxxxxxx"
  = "668a72d5ba17f08e62dabcafad6db14b".
Proof. vm_compute. reflexivity. Qed.

Example md5_64_bytes :
  MD5.hexdigest
    "xxxxxxxxxxxxxxxxxxxxxxxxxxxxxxxxxxxxxxxxxxxxxxxxxxxxxxxxxxxxxxxx"
  = "c1bb4f81d892b2d57947682aeb252456".
Proof. vm_compute. reflexivity. Qed.

Example md5_utf8 : MD5.hexdigest "正常" = "fd6e80f1e0199d6ecc3ee81ae04aa9ef".
Proof. vm_compute. reflexivity. Qed.

Example utf8_chars_mixed : utf8_chars "a正常b" = ["a"; "正"; "常"; "b"].
Proof. reflexivity. Qed.

(** ** The result monad *)

Lemma Ok_inj {A : Type} (a b : A) : Ok a = Ok b -> a = b.
Proof. intros H. injection H as H. exact H. Qed.

Lemma bind_ok {A B : Type} (m : result A) (k : A -> result B) (b : B) :
  bind m k = Ok b -> exists a, m = Ok a /\ k a = Ok b.
Proof.
  destruct m as [a | e]; simpl; intros H.
  - exists a. split; [reflexivity | exact H].
  - discriminate H.
Qed.



(** Splits a hypothesis [bind m k = Ok b] along its binds. *)
Ltac bind_inv H :=
  let a := fresh "a" in
  let Ha := fresh "Hb" in
  apply bind_ok in H; destruct H as [a [Ha H]]; cbv beta in H.

Lemma py_get_dict (kvs : list (string * json)) (k : string) (dflt : json) :
  py_get (JDict kvs) k dflt =
  Ok (match assoc k kvs with Some v => v | None => dflt end).
Proof. unfold py_get. destruct (assoc k kvs); reflexivity. Qed.

Lemma py_getitem_ok (o : json) (k : string) (v : json) :
  py_getitem o k = Ok v -> exists kvs, o = JDict kvs /\ assoc k kvs = Some v.
Proof.
  destruct o; simpl; try discriminate.
  destruct (assoc k kvs) eqn:E; intros H; inversion H; subst.
  exists kvs. split; [reflexivity | exact E].
Qed.

Lemma py_get_ok (o : json) (k : string) (dflt v : json) :
  py_get o k dflt = Ok v ->
  exists kvs, o = JDict kvs
              /\ v = match assoc k kvs with Some x => x | None => dflt end.
Proof.
  destruct o; simpl; try discriminate.
  intros H. exists kvs. split; [reflexivity |].
  destruct (assoc k kvs); inversion H; reflexivity.
Qed.

(** ** Loops *)




Lemma for_each_invariant {St : Type} (body : json -> St -> result St)
      (P : list json -> St -> Prop) :
  (forall done x s s', P done s -> body x s = Ok s' -> P (done ++ [x]) s') ->
  forall xs done s s',
    P done s -> for_each body xs s = Ok s' -> P (done ++ xs) s'.
Proof.
  intros Hstep xs. induction xs as [| x xs IH]; intros done s s' HP Hrun.
  - simpl in Hrun. inversion Hrun; subst. rewrite app_nil_r. exact HP.
  - cbn [for_each] in Hrun. bind_inv Hrun.
    specialize (Hstep _ _ _ _ HP Hb).
    specialize (IH _ _ _ Hstep Hrun).
    replace (done ++ x :: xs) with ((done ++ [x]) ++ xs)
      by (rewrite <- app_assoc; reflexivity).
    exact IH.
Qed.

(** ** Strings *)

Lemma endswith_Z_iff (s : string) : endswith_Z s = true <-> ends_in_Z s.
Proof.
  unfold ends_in_Z. induction s as [| c s IH].
  - split; [discriminate |]. intros [p H]. destruct p; discriminate H.
  - split.
    + intros H. destruct s as [| c' s'].
      * simpl in H. apply Ascii.eqb_eq in H. subst c.
        exists EmptyString. reflexivity.
      * change (endswith_Z (String c' s') = true) in H.
        apply IH in H. destruct H as [p Hp].
        exists (String c p). simpl. rewrite <- Hp. reflexivity.
    + intros [p H]. destruct p as [| c0 p'].
      * simpl in H. inversion H; subst. reflexivity.
      * simpl in H. inversion H; subst.
        assert (Hs : endswith_Z (p' ++ "Z")%string = true)
          by (apply IH; exists p'; reflexivity).
        destruct (p' ++ "Z")%string eqn:E.
        -- destruct p'; discriminate E.
        -- exact Hs.
Qed.

Lemma not_ends_in_Z (s : string) : endswith_Z s = false -> ~ ends_in_Z s.
Proof.
  intros H Hz. apply endswith_Z_iff in Hz. rewrite Hz in H. discriminate H.
Qed.

Lemma substring_0_length (n : nat) (s : string) :
  String.length (substring 0 n s) = Nat.min n (String.length s).
Proof.
  revert s. induction n as [| n IH]; intros s.
  - destruct s; reflexivity.
  - destruct s as [| c s]; [reflexivity |]. simpl. rewrite IH. reflexivity.
Qed.

Lemma substring_0_is_hex (n : nat) (s : string) :
  is_hex s = true -> is_hex (substring 0 n s) = true.
Proof.
  revert s. induction n as [| n IH]; intros s H.
  - destruct s; reflexivity.
  - destruct s as [| c s]; [reflexivity |]. simpl in *.
    apply andb_true_iff in H. destruct H as [Hc Hs].
    rewrite Hc. simpl. apply IH. exact Hs.
Qed.

Lemma hex_of_bytes_length (bs : list Z) :
  String.length (MD5.hex_of_bytes bs) = (2 * List.length bs)%nat.
Proof.
  induction bs as [| b bs IH]; [reflexivity |].
  cbn [MD5.hex_of_bytes String.length List.length]. rewrite IH. lia.
Qed.

Lemma le_bytes_length (n : nat) (w : Z) : List.length (MD5.le_bytes n w) = n.
Proof.
  revert w. induction n as [| n IH]; intros w; [reflexivity |].
  simpl. rewrite IH. reflexivity.
Qed.

Lemma hex_digit_is_hex (n : Z) : is_hex_char (MD5.hex_digit n) = true.
Proof.
  unfold MD5.hex_digit.
  remember (Z.to_nat n) as k eqn:E. clear E n.
  do 16 (destruct k as [| k]; [reflexivity |]).
  destruct k; reflexivity.
Qed.

Lemma hex_of_bytes_is_hex (bs : list Z) : is_hex (MD5.hex_of_bytes bs) = true.
Proof.
  induction bs as [| b bs IH]; [reflexivity |].
  cbn [MD5.hex_of_bytes is_hex].
  rewrite !hex_digit_is_hex, IH. reflexivity.
Qed.

Lemma hexdigest_length (s : string) : String.length (MD5.hexdigest s) = 32%nat.
Proof.
  unfold MD5.hexdigest, MD5.digest.
  rewrite hex_of_bytes_length, !length_app, !le_bytes_length. reflexivity.
Qed.

Lemma gen_trello_id_length {R : StrRepr} (v : json) :
  String.length (gen_trello_id v) = 24%nat.
Proof.
  unfold gen_trello_id. rewrite substring_0_length, hexdigest_length.
  reflexivity.
Qed.

Lemma gen_trello_id_is_hex {R : StrRepr} (v : json) :
  is_hex (gen_trello_id v) = true.
Proof.
  unfold gen_trello_id. apply substring_0_is_hex.
  unfold MD5.hexdigest. apply hex_of_bytes_is_hex.
Qed.


(** ** What one turn of each loop does *)

Section Steps.

Context {R : StrRepr}.
Variable utcnow : nat -> string.



Lemma card_step_inv (board_id list_id : string) (list_pos ci : Z)
      (card_item : json) (st st' : state) :
  card_step utcnow board_id list_id list_pos ci card_item st = Ok st' ->
  exists kvs v due id_labels card_labels id_checklists c,
    card_item = JDict kvs
    /\ assoc "id" kvs = Some v
    /\ normalize_due (match assoc "due_date" kvs with
                      | Some x => x
                      | None => JNull
                      end) = Ok due
    /\ card_labels_loop board_id card_item (board_labels_dict st)
       = Ok (board_labels_dict st', id_labels, card_labels)
    /\ card_checklists_loop board_id (gen_trello_id v) card_item
                            (checklists_global st)
       = Ok (checklists_global st', id_checklists)
    /\ ticks st' = S (ticks st)
    /\ card_counter st' = card_counter st + 1
    /\ lists st' = lists st
    /\ cards st' = cards st ++ [c]
    /\ field "id" c = Some (JStr (gen_trello_id v))
    /\ field "name" c
       = Some (py_or (match assoc "name" kvs with
                      | Some n => n
                      | None => JStr ""
                      end) (JStr ""))
    /\ field "desc" c
       = Some (py_or (match assoc "description" kvs with
                      | Some n => n
                      | None => JStr ""
                      end) (JStr ""))
    /\ field "idList" c = Some (JStr list_id)
    /\ field "pos" c = Some (JInt (list_pos + ci * 16384))
    /\ field "idShort" c = Some (JInt (card_counter st))
    /\ field "labels" c = Some (JList card_labels)
    /\ field "due" c = Some due
    /\ field "dateLastActivity" c
       = Some (JStr (utcnow (ticks st) ++ "Z")%string).
Proof.
  unfold card_step. intros H.
  bind_inv H. apply py_getitem_ok in Hb. destruct Hb as [kvs [-> Hid]].
  rewrite !py_get_dict in H. simpl in H.
  bind_inv H. bind_inv H. destruct a1 as [[d idl] copies].
  bind_inv H. destruct a1 as [chk idc]. inversion H; subst. clear H.
  eexists kvs, a, a0, idl, copies, idc, _.
  cbn [board_labels_dict ticks card_counter lists cards checklists_global].
  repeat split; try reflexivity; assumption.
Qed.

Lemma list_step_inv (board_id : string) (li : Z) (list_item : json)
      (st st' : state) :
  list_step utcnow board_id li list_item st = Ok st' ->
  exists kvs v l,
    list_item = JDict kvs
    /\ assoc "id" kvs = Some v
    /\ field "id" l = Some (JStr (gen_trello_id v))
    /\ field "name" l
       = Some (py_or (match assoc "name" kvs with
                      | Some n => n
                      | None => JStr ""
                      end) (JStr ""))
    /\ field "pos" l = Some (JInt (16384 * li))
    /\ py_iter (py_or (match assoc "cards" kvs with
                       | Some x => x
                       | None => JNull
                       end) (JList [])) = Ok (cards_of list_item)
    /\ for_enumerate
         (card_step utcnow board_id (gen_trello_id v) (16384 * li)) 1
         (cards_of list_item)
         (mkState (board_labels_dict st) (ticks st) (card_counter st)
                  (lists st ++ [l]) (cards st) (checklists_global st))
       = Ok st'.
Proof.
  unfold list_step. intros H.
  bind_inv H. apply py_getitem_ok in Hb. destruct Hb as [kvs [-> Hid]].
  rewrite !py_get_dict in H. simpl in H.
  bind_inv H.
  assert (Hcards : a0 = cards_of (JDict kvs)).
  { unfold cards_of, field, elements.
    destruct (assoc "cards" kvs) as [x |]; unfold py_or in Hb.
    - destruct (truthy x).
      + rewrite Hb. reflexivity.
      + simpl in Hb. inversion Hb. reflexivity.
    - simpl in Hb. inversion Hb. reflexivity. }
  subst a0.
  match type of H with
  | context [lists st ++ [?l]] => exists kvs, a, l
  end.
  repeat split; try reflexivity; assumption.
Qed.

Lemma convert_inv (kvs : list (string * json)) (board_id : string)
      (st : state) :
  convert utcnow (JDict kvs) = Ok (board_id, st) ->
  exists first rest fkvs sorted,
    assoc "data" kvs = Some (JList (first :: rest))
    /\ first = JDict fkvs
    /\ board_id = gen_trello_id (match assoc "board_id" fkvs with
                                 | Some v => v
                                 | None => JInt 12345
                                 end)
    /\ sorted_by_position (JList (first :: rest)) = Ok sorted
    /\ for_enumerate (list_step utcnow board_id) 1 sorted initial_state
       = Ok st.
Proof.
  unfold convert. intros H.
  bind_inv H. apply py_getitem_ok in Hb.
  destruct Hb as [kvs' [Hk Hdata]]. inversion Hk; subst kvs'. clear Hk.
  bind_inv H. bind_inv H.
  apply py_get_ok in Hb0. destruct Hb0 as [fkvs [-> ->]].
  destruct a as [| | | s | xs | kvs']; simpl in Hb; try discriminate Hb.
  - destruct (utf8_chars s); discriminate Hb.
  - destruct xs as [| x rest]; [discriminate Hb |].
    inversion Hb; subst x. clear Hb.
    simpl in H. rewrite Hdata in H. simpl in H.
    bind_inv H. bind_inv H. inversion H; subst. clear H.
    exists (JDict fkvs), rest, fkvs, a.
    repeat split; try reflexivity; assumption.
Qed.

Lemma main_inv (doc out : json) :
  main utcnow doc = Ok out ->
  exists kvs,
    doc = JDict kvs
    /\ ((truthy (match assoc "data" kvs with
                 | Some v => v
                 | None => JNull
                 end) = false
         /\ out = empty_board)
        \/ (exists board_id st,
               convert utcnow doc = Ok (board_id, st)
               /\ out = assemble utcnow board_id st)).
Proof.
  unfold main. intros H.
  bind_inv H. apply py_get_ok in Hb. destruct Hb as [kvs [-> ->]].
  exists kvs. split; [reflexivity |].
  destruct (truthy _) eqn:E; simpl in H.
  - right. bind_inv H. destruct a as [board_id st].
    inversion H; subst. exists board_id, st. split; [exact Hb | reflexivity].
  - left. inversion H; subst. split; reflexivity.
Qed.

End Steps.


(** ** Due dates *)

(** C9.  Due-date normalization: a non-empty due date that does not end in
    "Z" gains exactly one trailing "Z"; one that ends in "Z" is unchanged; a
    null, absent or empty due date passes through unchanged; and the [due]
    field of every target card is the normalized [due_date] of its source
    card. *)
Theorem due_date_normalization {R : StrRepr} :
  (forall s, s <> "" -> ~ ends_in_Z s ->
             normalize_due (JStr s) = Ok (JStr (s ++ "Z")%string))
  /\ (forall s, ends_in_Z s -> normalize_due (JStr s) = Ok (JStr s))
  /\ normalize_due JNull = Ok JNull
  /\ normalize_due (JStr "") = Ok (JStr "")
  /\ (forall kvs, assoc "due_date" kvs = None ->
                  (v <- py_get (JDict kvs) "due_date" JNull ;; normalize_due v)
                  = Ok JNull)
  /\ (forall utcnow board_id list_id list_pos ci card_item st st',
         card_step utcnow board_id list_id list_pos ci card_item st = Ok st' ->
         exists due_date due c,
           py_get card_item "due_date" JNull = Ok due_date
           /\ normalize_due due_date = Ok due
           /\ cards st' = cards st ++ [c]
           /\ field "due" c = Some due).
Proof.
  repeat split.
  - intros s Hne Hz. unfold normalize_due.
    assert (Ht : truthy (JStr s) = true).
    { simpl. destruct s; [contradiction Hne; reflexivity | reflexivity]. }
    rewrite Ht. destruct (endswith_Z s) eqn:E; [| reflexivity].
    apply endswith_Z_iff in E. contradiction.
  - intros s Hz. unfold normalize_due.
    apply endswith_Z_iff in Hz. rewrite Hz.
    destruct (truthy (JStr s)); reflexivity.
  - intros kvs H. rewrite py_get_dict, H. reflexivity.
  - intros utcnow board_id list_id list_pos ci card_item st st' H.
    apply card_step_inv in H.
    destruct H as (kvs & v & due & idl & cl & idc & c & -> & _ & Hdue & _ & _
                   & _ & _ & _ & Hcards & _ & _ & _ & _ & _ & _ & _ & Hf & _).
    eexists _, due, c. rewrite py_get_dict.
    repeat split; [exact Hdue | exact Hcards | exact Hf].
Qed.

Lemma due_date_normalization_witness :
  "2024-05-01T10:00:00" <> ""
  /\ ~ ends_in_Z "2024-05-01T10:00:00"
  /\ normalize_due (JStr "2024-05-01T10:00:00")
     = Ok (JStr "2024-05-01T10:00:00Z").
Proof.
  assert (Hne : "2024-05-01T10:00:00" <> "") by discriminate.
  assert (Hz : ~ ends_in_Z "2024-05-01T10:00:00")
    by (apply not_ends_in_Z; reflexivity).
  split; [exact Hne | split; [exact Hz |]].
  exact (proj1 (@due_date_normalization plain_repr) _ Hne Hz).
Defined.

(** ** The board id *)

(** C10.  The id of the output board is the 24-character hexadecimal id
    synthesized from the [board_id] of the first record of [data] (in input
    order), and from the integer 12345 when that record has no [board_id];
    the board written for an input without data is seeded with 12345 too, so
    a first record without [board_id] gives the id of that minimal board. *)
Theorem board_id_from_first_record {R : StrRepr} (utcnow : nat -> string)
        (doc out : json) :
  main utcnow doc = Ok out ->
  exists kvs seed,
    doc = JDict kvs
    /\ field "id" out = Some (JStr (gen_trello_id seed))
    /\ String.length (gen_trello_id seed) = 24%nat
    /\ is_hex (gen_trello_id seed) = true
    /\ (truthy (match assoc "data" kvs with Some v => v | None => JNull end)
        = false -> seed = JInt 12345)
    /\ (truthy (match assoc "data" kvs with Some v => v | None => JNull end)
        = true ->
        exists first rest,
          assoc "data" kvs = Some (JList (first :: rest))
          /\ seed = match field "board_id" first with
                    | Some v => v
                    | None => JInt 12345
                    end)
    /\ (forall first rest,
           assoc "data" kvs = Some (JList (first :: rest)) ->
           field "board_id" first = None ->
           field "id" out = field "id" (@empty_board R)).
Proof.
  intros H. apply main_inv in H. destruct H as [kvs [-> H]].
  destruct H as [[Hf ->] | (board_id & st & Hc & ->)].
  - exists kvs, (JInt 12345).
    split; [reflexivity |]. split; [reflexivity |].
    split; [apply gen_trello_id_length |].
    split; [apply gen_trello_id_is_hex |].
    split; [reflexivity |].
    split.
    + intros Ht. rewrite Ht in Hf. discriminate Hf.
    + intros first rest Hd _. reflexivity.
  - apply convert_inv in Hc.
    destruct Hc as (first & rest & fkvs & sorted & Hd & -> & -> & _ & _).
    exists kvs, (match assoc "board_id" fkvs with
                 | Some v => v
                 | None => JInt 12345
                 end).
    split; [reflexivity |]. split; [reflexivity |].
    split; [apply gen_trello_id_length |].
    split; [apply gen_trello_id_is_hex |].
    split; [| split].
    + rewrite Hd. simpl. discriminate.
    + intros _. exists (JDict fkvs), rest. split; [exact Hd | reflexivity].
    + intros first rest' Hd' Hnone. rewrite Hd in Hd'.
      inversion Hd'; subst. simpl in Hnone. rewrite Hnone. reflexivity.
Qed.

Lemma board_id_from_first_record_witness :
  exists out,
    @main plain_repr Samples.clock_a Samples.doc_two_lists = Ok out
    /\ field "id" out = Some (JStr "827ccb0eea8a706c4c34a168")
    /\ field "id" out = field "id" (@empty_board plain_repr).
Proof.
  destruct (@main plain_repr Samples.clock_a Samples.doc_two_lists)
    as [out | e] eqn:E; [| vm_compute in E; discriminate E].
  exists out. split; [reflexivity |].
  destruct (@board_id_from_first_record plain_repr _ _ _ E)
    as (kvs & seed & Hdoc & Hid & _ & _ & _ & _ & Hsame).
  inversion Hdoc; subst kvs. clear Hdoc.
  assert (Hs : field "id" out = field "id" (@empty_board plain_repr))
    by (eapply Hsame; reflexivity).
  split; [rewrite Hs; vm_compute; reflexivity | exact Hs].
Defined.

(** ** Labels *)

Lemma key_eqb_eq (a b : label_key) : key_eqb a b = true <-> a = b.
Proof.
  destruct a as [a1 a2], b as [b1 b2]. unfold key_eqb. simpl.
  rewrite andb_true_iff, !String.eqb_eq. split.
  - intros [-> ->]. reflexivity.
  - intros H. inversion H. split; reflexivity.
Qed.

Lemma key_eqb_refl (a : label_key) : key_eqb a a = true.
Proof. apply key_eqb_eq. reflexivity. Qed.

Lemma key_eqb_neq (a b : label_key) : key_eqb a b = false <-> a <> b.
Proof.
  split.
  - intros H E. apply key_eqb_eq in E. rewrite E in H. discriminate H.
  - intros H. destruct (key_eqb a b) eqn:E; [| reflexivity].
    apply key_eqb_eq in E. contradiction.
Qed.

Lemma labels_find_keyed (key : label_key) (d : labels_dict) (l : TargetLabel) :
  dict_keyed d -> labels_find key d = Some l -> key_of l = key.
Proof.
  unfold dict_keyed. induction d as [| [k l0] d IH]; simpl; intros Hk Hf.
  - discriminate Hf.
  - apply Forall_cons_iff in Hk. destruct Hk as [Hh Ht].
    destruct (key_eqb k key) eqn:E.
    + inversion Hf; subst l0. apply key_eqb_eq in E. rewrite <- E.
      exact Hh.
    + apply IH; assumption.
Qed.

Lemma labels_find_app (key : label_key) (d d' : labels_dict) :
  labels_find key (d ++ d') =
  match labels_find key d with
  | Some l => Some l
  | None => labels_find key d'
  end.
Proof.
  induction d as [| [k l0] d IH]; simpl; [reflexivity |].
  destruct (key_eqb k key); [reflexivity | exact IH].
Qed.

Lemma labels_set_app_new (key : label_key) (l l' : TargetLabel)
      (d : labels_dict) :
  labels_find key d = None ->
  labels_set key l' (d ++ [(key, l)]) = d ++ [(key, l')].
Proof.
  induction d as [| [k l0] d IH]; simpl; intros H.
  - rewrite key_eqb_refl. reflexivity.
  - destruct (key_eqb k key); [discriminate H |]. rewrite IH; auto.
Qed.

Lemma labels_find_set (key key' : label_key) (l l0 : TargetLabel)
      (d : labels_dict) :
  labels_find key d = Some l0 ->
  labels_find key' (labels_set key l d) =
  if key_eqb key key' then Some l else labels_find key' d.
Proof.
  induction d as [| [k l1] d IH]; simpl; intros H; [discriminate H |].
  destruct (key_eqb k key) eqn:E.
  - apply key_eqb_eq in E. subst k. simpl.
    destruct (key_eqb key key'); reflexivity.
  - simpl. destruct (key_eqb k key') eqn:E'.
    + apply key_eqb_eq in E'. subst k.
      destruct (key_eqb key key') eqn:E2; [| reflexivity].
      apply key_eqb_eq in E2. subst key'.
      rewrite key_eqb_refl in E. discriminate E.
    + apply IH. exact H.
Qed.

Lemma labels_set_keyed (key : label_key) (l : TargetLabel) (d : labels_dict) :
  dict_keyed d -> key_of l = key -> dict_keyed (labels_set key l d).
Proof.
  unfold dict_keyed. induction d as [| [k l0] d IH]; simpl; intros Hk Hl.
  - constructor.
  - apply Forall_cons_iff in Hk. destruct Hk as [Hh Ht].
    destruct (key_eqb k key) eqn:E.
    + apply key_eqb_eq in E. constructor; [| exact Ht].
      simpl. rewrite E. exact Hl.
    + constructor; [exact Hh | apply IH; assumption].
Qed.

Lemma palette_entry_nonempty (s : string) (m : string * string) :
  palette_find s COLOR_MAPPING = Some m -> (fst m =? "")%string = false.
Proof.
  unfold COLOR_MAPPING. cbn [palette_find].
  repeat match goal with
         | |- context [(?x =? s)%string] => destruct (x =? s)%string
         end;
    intros H; inversion H; reflexivity.
Qed.

(** The key the script computes from the palette entry is [mapped_key]. *)
Lemma color_mapping_key (kvs : list (string * json))
      (a : option (string * string)) :
  color_mapping_get (match assoc "color" kvs with
                     | Some v => v
                     | None => JStr ""
                     end) = Ok a ->
  (if ((match a with Some m => fst m | None => "" end =? "")
       && (match a with Some m => snd m | None => "" end =? ""))%string
   then ("green", "正常")
   else (match a with Some m => fst m | None => "" end,
         match a with Some m => snd m | None => "" end))
  = mapped_key (JDict kvs).
Proof.
  unfold mapped_key, field, color_mapping_get.
  destruct (assoc "color" kvs) as [c |].
  - destruct c; intros H; try discriminate H;
      apply Ok_inj in H; subst a; try reflexivity.
    destruct (palette_find s COLOR_MAPPING) as [m |] eqn:E; [| reflexivity].
    rewrite (palette_entry_nonempty _ _ E). destruct m; reflexivity.
  - intros H. apply Ok_inj in H. subst a. reflexivity.
Qed.

(** The script's computation of the key agrees with [mapped_key], and its
    dict update with [note_ref]. *)
Lemma get_or_create_spec {R : StrRepr} (board_id : string) (lb : json)
      (d d' : labels_dict) (key : label_key) (l : TargetLabel) :
  get_or_create_board_label board_id lb d = Ok (key, l, d') ->
  key = mapped_key lb
  /\ labels_find key d' = Some l
  /\ labels_set key (incr_uses l) d' = note_ref board_id d lb
  /\ (labels_find key d = None -> lbl_id l = gen_trello_id (label_seed lb))
  /\ (dict_keyed d -> key_of l = key).
Proof.
  unfold get_or_create_board_label. intros H.
  bind_inv H. apply py_get_ok in Hb. destruct Hb as [kvs [-> ->]].
  rewrite py_get_dict in H. cbv beta in H. unfold bind at 1 in H.
  bind_inv H. cbv zeta in H.
  unfold note_ref, new_label.
  set (key0 := mapped_key (JDict kvs)) in *.
  match type of H with
  | context [labels_find ?k d] =>
      replace k with key0 in H
        by (symmetry; apply color_mapping_key; exact Hb)
  end.
  destruct (labels_find key0 d) as [l0 |] eqn:E.
  - apply Ok_inj in H. injection H as <- <- <-.
    split; [reflexivity |]. split; [exact E |]. split; [reflexivity |].
    split.
    + intros Hn. rewrite Hn in E. discriminate E.
    + intros Hk. eapply labels_find_keyed; eassumption.
  - apply Ok_inj in H. injection H as <- <- <-.
    split; [reflexivity |]. split.
    { rewrite labels_find_app, E. simpl. rewrite key_eqb_refl. reflexivity. }
    split.
    { rewrite labels_set_app_new by exact E. reflexivity. }
    split.
    + intros _. reflexivity.
    + intros _. unfold key_of. simpl. destruct key0; reflexivity.
Qed.


Lemma label_step_spec {R : StrRepr} (board_id : string) (lb : json)
      (d d' : labels_dict) (ids ids' copies copies' : list json) :
  label_step board_id lb (d, ids, copies) = Ok (d', ids', copies') ->
  d' = note_ref board_id d lb
  /\ exists l,
      labels_find (mapped_key lb) d' = Some l
      /\ ids' = ids ++ [JStr (lbl_id l)]
      /\ copies' = copies ++ [label_json l]
      /\ (dict_keyed d -> key_of l = mapped_key lb).
Proof.
  unfold label_step. intros H. bind_inv H.
  destruct a as [[key l] d1]. apply Ok_inj in H. injection H as <- <- <-.
  apply get_or_create_spec in Hb.
  destruct Hb as (-> & Hfind & Hnote & _ & Hkeyed).
  split; [exact Hnote |].
  exists (incr_uses l). split.
  - rewrite (labels_find_set _ _ _ _ _ Hfind), key_eqb_refl. reflexivity.
  - split; [reflexivity |]. split; [reflexivity |].
    intros Hk. apply Hkeyed in Hk. exact Hk.
Qed.

Lemma card_labels_loop_spec {R : StrRepr} (board_id : string)
      (card_item : json) (d d' : labels_dict) (ids copies : list json) :
  card_labels_loop board_id card_item d = Ok (d', ids, copies) ->
  d' = fold_left (note_ref board_id) (label_refs card_item) d.
Proof.
  unfold card_labels_loop. intros H. bind_inv H.
  apply py_get_ok in Hb. destruct Hb as [kvs [-> ->]].
  unfold label_refs, field.
  destruct (assoc "cards_labels" kvs) as [v |] eqn:E.
  - destruct (truthy v) eqn:Et.
    + bind_inv H. apply py_getitem_ok in Hb.
      destruct Hb as [kvs' [Hk Hv]]. injection Hk as <-.
      rewrite E in Hv. injection Hv as <-.
      bind_inv H. unfold elements. rewrite Hb.
      pose (P := fun (done : list json)
                     (s : labels_dict * list json * list json) =>
                   fst (fst s) = fold_left (note_ref board_id) done d).
      apply (for_each_invariant _ P) with (done := []) in H.
      * exact H.
      * intros done x [[d0 i0] c0] [[d1 i1] c1] HP Hs. unfold P in *.
        simpl in *. apply label_step_spec in Hs. destruct Hs as [-> _].
        rewrite fold_left_app. simpl. rewrite HP. reflexivity.
      * reflexivity.
    + apply Ok_inj in H. injection H as <- _ _. reflexivity.
  - simpl in H. apply Ok_inj in H. injection H as <- _ _. reflexivity.
Qed.

Lemma uses_note_ref {R : StrRepr} (board_id : string) (key : label_key)
      (d : labels_dict) (lb : json) :
  uses_of key (note_ref board_id d lb)
  = uses_of key d + (if key_eqb (mapped_key lb) key then 1 else 0).
Proof.
  unfold note_ref, uses_of.
  destruct (labels_find (mapped_key lb) d) as [l |] eqn:E.
  - rewrite (labels_find_set _ key _ _ _ E).
    destruct (key_eqb (mapped_key lb) key) eqn:Ek.
    + apply key_eqb_eq in Ek. rewrite <- Ek, E. reflexivity.
    + destruct (labels_find key d); lia.
  - rewrite labels_find_app. cbn [labels_find].
    destruct (key_eqb (mapped_key lb) key) eqn:Ek.
    + apply key_eqb_eq in Ek. rewrite <- Ek, E. reflexivity.
    + destruct (labels_find key d); lia.
Qed.

Lemma uses_fold_note_ref {R : StrRepr} (board_id : string) (key : label_key)
      (refs : list json) (d : labels_dict) :
  uses_of key (fold_left (note_ref board_id) refs d)
  = uses_of key d + count_key key (map mapped_key refs).
Proof.
  revert d. induction refs as [| lb refs IH]; intros d; simpl.
  - lia.
  - rewrite IH, uses_note_ref. lia.
Qed.

(** C1 (as the code has it).  [uses] counts label references: processing a
    card leaves the [uses] of every canonical label higher by the number of
    references in the card's list that map to the label's (color, name)
    pair, so by 2 for a card with two source labels of one pair. *)
Theorem uses_counts_each_reference {R : StrRepr} (utcnow : nat -> string)
        (board_id list_id : string) (list_pos ci : Z) (card_item : json)
        (st st' : state) :
  card_step utcnow board_id list_id list_pos ci card_item st = Ok st' ->
  forall key,
    uses_of key (board_labels_dict st')
    = uses_of key (board_labels_dict st)
      + count_key key (map mapped_key (label_refs card_item)).
Proof.
  intros H key. apply card_step_inv in H.
  destruct H as (kvs & v & due & idl & cl & idc & c & _ & _ & _ & Hl & _).
  apply card_labels_loop_spec in Hl. rewrite Hl.
  apply uses_fold_note_ref.
Qed.

Lemma uses_counts_each_reference_witness :
  exists st',
    @card_step plain_repr Samples.clock_a "board" "list" 16384 1
               Samples.card_two_refs initial_state = Ok st'
    /\ uses_of ("blue", "INFO") (board_labels_dict st') = 2.
Proof.
  destruct (@card_step plain_repr Samples.clock_a "board" "list" 16384 1
                       Samples.card_two_refs initial_state)
    as [st' | e] eqn:E; [| vm_compute in E; discriminate E].
  exists st'. split; [reflexivity |].
  rewrite (@uses_counts_each_reference plain_repr _ _ _ _ _ _ _ _ E).
  reflexivity.
Defined.

(** C1 as stated fails: the card references two source labels of the pair
    (blue, INFO), and the [uses] of that label goes from 0 to 2, not to 1. *)
Lemma uses_once_per_card_counterexample :
  exists st',
    @card_step plain_repr Samples.clock_a "board" "list" 16384 1
               Samples.card_two_refs initial_state = Ok st'
    /\ map mapped_key (label_refs Samples.card_two_refs)
       = [("blue", "INFO"); ("blue", "INFO")]
    /\ uses_of ("blue", "INFO") (board_labels_dict initial_state) = 0
    /\ uses_of ("blue", "INFO") (board_labels_dict st') = 2
    /\ uses_of ("blue", "INFO") (board_labels_dict st')
       <> uses_of ("blue", "INFO") (board_labels_dict initial_state) + 1.
Proof.
  eexists. split; [vm_compute; reflexivity |].
  split; [reflexivity |]. split; [reflexivity |].
  split; [reflexivity |]. vm_compute. discriminate.
Qed.





(** ** The sort *)


Lemma py_lt_num (a b : json) (x y : Z) :
  as_num a = Some x -> as_num b = Some y -> py_lt a b = Ok (x <? y).
Proof.
  destruct a, b; simpl; intros Ha Hb; try discriminate;
    injection Ha as <-; injection Hb as <-; reflexivity.
Qed.



Lemma position_keys_dicts (xs : list json) (ks : list (json * json)) :
  position_keys xs = Ok ks ->
  map snd ks = xs
  /\ Forall (fun kx => as_num (fst kx) = position_of (snd kx)) ks.
Proof.
  revert ks. induction xs as [| x xs IH]; intros ks H.
  - simpl in H. apply Ok_inj in H. subst ks. split; constructor.
  - cbn [position_keys] in H. bind_inv H. bind_inv H.
    apply Ok_inj in H. subst ks.
    destruct (IH _ Hb0) as [Hm Hf].
    apply py_get_ok in Hb. destruct Hb as [kvs [-> ->]].
    split; [simpl; rewrite Hm; reflexivity |].
    constructor; [| exact Hf].
    simpl. destruct (assoc "position" kvs); reflexivity.
Qed.





(** ** What the loops of a run leave *)





Lemma count_from_app (i : Z) (n m : nat) :
  count_from i (n + m) = count_from i n ++ count_from (i + Z.of_nat n) m.
Proof.
  revert i. induction n as [| n IH]; intros i.
  - simpl. rewrite Z.add_0_r. reflexivity.
  - cbn [Nat.add count_from app]. rewrite IH.
    replace (i + 1 + Z.of_nat n) with (i + Z.of_nat (S n)) by lia.
    reflexivity.
Qed.


Section Run.

Context {R : StrRepr}.
Variable utcnow : nat -> string.
Variable board_id : string.

Lemma card_loop_spec (list_id : string) (list_pos : Z) (cs : list json) :
  forall (i : Z) (st st' : state),
    for_enumerate (card_step utcnow board_id list_id list_pos) i cs st
    = Ok st' ->
    lists st' = lists st
    /\ map card_view (cards st')
       = map card_view (cards st)
             ++ map (expected_card list_id list_pos) (enumerate i cs)
    /\ map (fun c => as_int (field "idShort" c)) (cards st')
       = map (fun c => as_int (field "idShort" c)) (cards st)
             ++ map Some (count_from (card_counter st) (List.length cs))
    /\ card_counter st' = card_counter st + Z.of_nat (List.length cs)
    /\ ticks st' = (ticks st + List.length cs)%nat
    /\ board_labels_dict st'
       = fold_left (note_ref board_id) (flat_map label_refs cs)
                   (board_labels_dict st).
Proof.
  induction cs as [| c cs IH]; intros i st st' H.
  - simpl in H. apply Ok_inj in H. subst st'. simpl.
    rewrite !app_nil_r, Z.add_0_r, Nat.add_0_r. repeat split.
  - cbn [for_enumerate] in H. bind_inv H.
    apply IH in H. clear IH.
    destruct H as (Hl & Hc & Hs & Hn & Ht & Hd).
    pose proof (card_step_inv _ _ _ _ _ _ _ _ Hb) as Hinv.
    destruct Hinv as (kvs & v & due & idl & cl & idc & cj & -> & Hid & _
                      & Hlab & _ & Ht1 & Hn1 & Hl1 & Hc1 & Fid & _ & _
                      & Fil & Fpos & Fshort & _).
    apply card_labels_loop_spec in Hlab.
    split; [rewrite Hl; exact Hl1 |].
    split.
    { rewrite Hc, Hc1, map_app, <- app_assoc. f_equal.
      cbn [enumerate map app]. f_equal.
      unfold card_view, pos_field, expected_card, id_of, field in *.
      cbn [fst snd]. rewrite Fid, Fil, Fpos, Hid. reflexivity. }
    split.
    { rewrite Hs, Hc1, map_app, <- app_assoc. f_equal.
      cbn [List.length count_from map app]. rewrite Fshort, Hn1.
      reflexivity. }
    split; [rewrite Hn, Hn1; cbn [List.length]; lia |].
    split; [rewrite Ht, Ht1; cbn [List.length]; lia |].
    rewrite Hd, Hlab. cbn [flat_map]. rewrite fold_left_app. reflexivity.
Qed.

Lemma list_loop_spec (xs : list json) :
  forall (i : Z) (st st' : state),
    for_enumerate (list_step utcnow board_id) i xs st = Ok st' ->
    map list_view (lists st')
    = map list_view (lists st) ++ map expected_list (enumerate i xs)
    /\ map card_view (cards st')
       = map card_view (cards st)
             ++ flat_map expected_cards (enumerate i xs)
    /\ map (fun c => as_int (field "idShort" c)) (cards st')
       = map (fun c => as_int (field "idShort" c)) (cards st)
             ++ map Some (count_from (card_counter st)
                                     (List.length (flat_map cards_of xs)))
    /\ ticks st' = (ticks st + List.length (flat_map cards_of xs))%nat
    /\ board_labels_dict st'
       = fold_left (note_ref board_id) (all_label_refs xs)
                   (board_labels_dict st).
Proof.
  induction xs as [| x xs IH]; intros i st st' H.
  - simpl in H. apply Ok_inj in H. subst st'. simpl.
    rewrite !app_nil_r, Nat.add_0_r. repeat split.
  - cbn [for_enumerate] in H. bind_inv H.
    apply IH in H. clear IH.
    destruct H as (Hl & Hc & Hs & Ht & Hd).
    apply list_step_inv in Hb.
    destruct Hb as (kvs & v & l & -> & Hid & Fid & _ & Fpos & _ & Hloop).
    apply card_loop_spec in Hloop.
    destruct Hloop as (Hl1 & Hc1 & Hs1 & Hn1 & Ht1 & Hd1).
    cbn [lists cards card_counter ticks board_labels_dict] in *.
    assert (Hidof : id_of (JDict kvs) = v)
      by (unfold id_of, field; rewrite Hid; reflexivity).
    split.
    { rewrite Hl, Hl1, map_app, <- app_assoc. f_equal.
      cbn [enumerate map app]. f_equal.
      unfold list_view, pos_field, expected_list. cbn [fst snd].
      rewrite Fid, Fpos, Hidof. reflexivity. }
    split.
    { rewrite Hc, Hc1, <- app_assoc. f_equal.
      cbn [enumerate flat_map]. f_equal.
      unfold expected_cards. cbn [fst snd]. rewrite Hidof.
      reflexivity. }
    split.
    { rewrite Hs, Hs1, <- app_assoc. f_equal.
      cbn [flat_map]. rewrite length_app, count_from_app, map_app, Hn1.
      reflexivity. }
    split.
    { rewrite Ht, Ht1. cbn [flat_map]. rewrite length_app. lia. }
    rewrite Hd, Hd1. unfold all_label_refs. cbn [flat_map].
    rewrite fold_left_app. reflexivity.
Qed.

End Run.

(** A run that returns: the document is a dict, and either it has no data
    and the board is the minimal one, or the loops ran over the sorted
    lists. *)
Lemma main_run {R : StrRepr} (utcnow : nat -> string) (doc out : json) :
  main utcnow doc = Ok out ->
  (sorted_lists doc = [] /\ out = empty_board
   /\ exists kvs, doc = JDict kvs
                  /\ truthy (match assoc "data" kvs with
                             | Some v => v
                             | None => JNull
                             end) = false)
  \/ (exists board_id st xs,
         field "data" doc = Some (JList xs)
         /\ sorted_by_position (JList xs) = Ok (sorted_lists doc)
         /\ for_enumerate (list_step utcnow board_id) 1 (sorted_lists doc)
                          initial_state = Ok st
         /\ out = assemble utcnow board_id st).
Proof.
  intros H. apply main_inv in H. destruct H as [kvs [-> H]].
  destruct H as [[Hf ->] | (board_id & st & Hc & ->)].
  - left. split; [| split; [reflexivity | exists kvs; split; auto]].
    unfold sorted_lists, field. destruct (assoc "data" kvs); [| reflexivity].
    rewrite Hf. reflexivity.
  - right. apply convert_inv in Hc.
    destruct Hc as (first & rest & fkvs & sorted & Hd & _ & _ & Hs & Hrun).
    exists board_id, st, (first :: rest).
    assert (Hsl : sorted_lists (JDict kvs) = sorted).
    { unfold sorted_lists, field. rewrite Hd.
      cbn [truthy]. rewrite Hs. reflexivity. }
    rewrite Hsl. repeat split; assumption.
Qed.


(** ** Order and numbering *)

Lemma enumerate_fst (i : Z) (xs : list json) :
  map fst (enumerate i xs) = count_from i (List.length xs).
Proof.
  revert i. induction xs as [| x xs IH]; intros i; simpl;
    [| rewrite IH]; reflexivity.
Qed.

Lemma enumerate_snd (i : Z) (xs : list json) :
  map snd (enumerate i xs) = xs.
Proof.
  revert i. induction xs as [| x xs IH]; intros i; simpl;
    [| rewrite IH]; reflexivity.
Qed.

Lemma map_pair_eq {A B C D : Type} (f : A -> C) (g : A -> D)
      (f' : B -> C) (g' : B -> D) (l : list A) (l' : list B) :
  map f l = map f' l' -> map g l = map g' l' ->
  map (fun a => (f a, g a)) l = map (fun b => (f' b, g' b)) l'.
Proof.
  revert l'. induction l as [| a l IH]; intros [| b l'] Hf Hg;
    try discriminate; [reflexivity |].
  simpl in *. injection Hf as Hf1 Hf2. injection Hg as Hg1 Hg2.
  rewrite Hf1, Hg1, (IH l' Hf2 Hg2). reflexivity.
Qed.


Lemma expected_cards_ids {R : StrRepr} (xs : list json) (i : Z) :
  map (fun t => fst (fst t)) (flat_map expected_cards (enumerate i xs))
  = map (fun c => Some (JStr (gen_trello_id (id_of c))))
        (flat_map cards_of xs).
Proof.
  revert i. induction xs as [| x xs IH]; intros i; [reflexivity |].
  cbn [enumerate flat_map]. rewrite !map_app, IH. f_equal.
  unfold expected_cards, expected_card. cbn [fst snd]. rewrite map_map.
  cbn [fst snd]. rewrite <- (enumerate_snd 1 (cards_of x)) at 2.
  rewrite map_map. reflexivity.
Qed.

(** C8.  The idShort values of the cards are 1, 2, 3, ... in the order the
    cards are visited (sorted lists, then the cards of each list in source
    order): the k-th card visited, counted across the whole board and never
    restarted at a new list, has idShort k. *)
Theorem idShort_sequence {R : StrRepr} (utcnow : nat -> string)
        (doc out : json) :
  main utcnow doc = Ok out ->
  exists cs,
    field "cards" out = Some (JList cs)
    /\ map (fun c => (field "id" c, as_int (field "idShort" c))) cs
       = map (fun e => (Some (JStr (gen_trello_id (id_of (snd e)))),
                        Some (fst e)))
             (enumerate 1 (flat_map cards_of (sorted_lists doc)))
    /\ map (fun c => as_int (field "idShort" c)) cs
       = map Some (count_from 1 (List.length cs)).
Proof.
  intros H. apply main_run in H.
  destruct H as [(Hs & -> & _) | (board_id & st & xs & _ & _ & Hrun & ->)].
  - exists []. rewrite Hs. repeat split.
  - exists (cards st). split; [reflexivity |].
    apply list_loop_spec in Hrun.
    destruct Hrun as (_ & Hc & Hshort & _ & _). simpl in Hc, Hshort.
    assert (Hids : map (fun c => field "id" c) (cards st)
                   = map (fun c => Some (JStr (gen_trello_id (id_of c))))
                         (flat_map cards_of (sorted_lists doc))).
    { rewrite <- expected_cards_ids with (i := 1), <- Hc, map_map.
      reflexivity. }
    assert (Hlen : List.length (cards st)
                   = List.length (flat_map cards_of (sorted_lists doc))).
    { apply (f_equal (@List.length _)) in Hids.
      rewrite !length_map in Hids. exact Hids. }
    split; [| rewrite Hlen; exact Hshort].
    apply map_pair_eq.
    + etransitivity; [exact Hids |].
      rewrite <- (enumerate_snd 1 (flat_map cards_of (sorted_lists doc)))
        at 1.
      rewrite map_map. reflexivity.
    + etransitivity; [exact Hshort |].
      rewrite <- enumerate_fst, map_map. reflexivity.
Qed.

Lemma idShort_sequence_witness :
  exists out,
    @main plain_repr Samples.clock_a Samples.doc_two_lists = Ok out
    /\ exists cs,
        field "cards" out = Some (JList cs)
        /\ map (fun c => as_int (field "idShort" c)) cs
           = [Some 1; Some 2; Some 3].
Proof.
  destruct (@main plain_repr Samples.clock_a Samples.doc_two_lists)
    as [out | e] eqn:E; [| vm_compute in E; discriminate E].
  exists out. split; [reflexivity |].
  destruct (@idShort_sequence plain_repr _ _ _ E) as (cs & Hc & Hp & Hs).
  exists cs. split; [exact Hc |].
  assert (Hlen : List.length cs = 3%nat).
  { apply (f_equal (@List.length _)) in Hp.
    rewrite !length_map in Hp. rewrite Hp. vm_compute. reflexivity. }
  rewrite Hs, Hlen. reflexivity.
Defined.




(** ** The board labels *)

Lemma labels_find_none_iff (key : label_key) (d : labels_dict) :
  labels_find key d = None <-> ~ In key (map fst d).
Proof.
  induction d as [| [k l] d IH]; simpl.
  - tauto.
  - destruct (key_eqb k key) eqn:E.
    + apply key_eqb_eq in E. split; [discriminate | intros H; tauto].
    + apply key_eqb_neq in E. rewrite IH. tauto.
Qed.

Lemma labels_find_In (key : label_key) (d : labels_dict) (l : TargetLabel) :
  labels_find key d = Some l -> In (key, l) d.
Proof.
  induction d as [| [k l0] d IH]; simpl; intros H; [discriminate H |].
  destruct (key_eqb k key) eqn:E.
  - apply key_eqb_eq in E. injection H as <-. subst k. left. reflexivity.
  - right. apply IH. exact H.
Qed.

Lemma labels_set_keys (key : label_key) (l : TargetLabel) (d : labels_dict) :
  map fst (labels_set key l d) = map fst d.
Proof.
  induction d as [| [k l0] d IH]; simpl; [reflexivity |].
  destruct (key_eqb k key); simpl; [| rewrite IH]; reflexivity.
Qed.

Lemma labels_set_In (key k : label_key) (l l' : TargetLabel)
      (d : labels_dict) :
  In (k, l') (labels_set key l d) -> (k = key /\ l' = l) \/ In (k, l') d.
Proof.
  induction d as [| [k0 l0] d IH]; simpl; intros H; [contradiction |].
  destruct (key_eqb k0 key) eqn:E; simpl in H.
  - apply key_eqb_eq in E. destruct H as [H | H].
    + injection H as <- <-. left. split; [exact E | reflexivity].
    + right. right. exact H.
  - destruct H as [H | H]; [right; left; exact H |].
    destruct (IH H) as [Hk | Hin]; [left; exact Hk | right; right; exact Hin].
Qed.

(** The dict that a sequence of references builds from the empty dict: one
    entry per pair referenced, created by the first reference to it. *)
Lemma fold_note_ref_spec {R : StrRepr} (board_id : string) (refs : list json) :
  let d := fold_left (note_ref board_id) refs [] in
  NoDup (map fst d)
  /\ dict_keyed d
  /\ (forall k, In k (map fst d) <-> In k (map mapped_key refs))
  /\ (forall k l,
         In (k, l) d ->
         exists pre lb post,
           refs = pre ++ lb :: post
           /\ ~ In k (map mapped_key pre)
           /\ mapped_key lb = k
           /\ lbl_id l = gen_trello_id (label_seed lb)).
Proof.
  induction refs as [| lb refs IH] using rev_ind.
  - simpl. split; [constructor |]. split; [constructor |].
    split; [tauto |]. intros k l [].
  - rewrite fold_left_app. cbn [fold_left].
    set (d := fold_left (note_ref board_id) refs []) in *.
    cbv zeta in IH. destruct IH as (Hnd & Hkd & Hiff & Hfirst).
    cbv zeta. unfold note_ref.
    destruct (labels_find (mapped_key lb) d) as [l0 |] eqn:E.
    + pose proof (labels_find_In _ _ _ E) as Hin0.
      split; [rewrite labels_set_keys; exact Hnd |].
      split.
      { apply labels_set_keyed; [exact Hkd |].
        apply (labels_find_keyed _ _ _ Hkd E). }
      split.
      { intros k. rewrite labels_set_keys, map_app, in_app_iff, Hiff.
        simpl. split; [tauto |]. intros [H | [H | []]]; [exact H |].
        subst k. apply Hiff. apply (in_map fst) in Hin0. exact Hin0. }
      intros k l Hin. apply labels_set_In in Hin.
      destruct Hin as [[-> ->] | Hin].
      * destruct (Hfirst _ _ Hin0) as (pre & lb0 & post & -> & Hn & Hm & Hi).
        exists pre, lb0, (post ++ [lb]).
        rewrite <- app_assoc. repeat split; assumption.
      * destruct (Hfirst _ _ Hin) as (pre & lb0 & post & -> & Hn & Hm & Hi).
        exists pre, lb0, (post ++ [lb]).
        rewrite <- app_assoc. repeat split; assumption.
    + pose proof (proj1 (labels_find_none_iff _ _) E) as Hnotin.
      split.
      { rewrite map_app. simpl. apply NoDup_app.
        - exact Hnd.
        - repeat constructor. intros [].
        - intros k Hk [Hk' | []]. subst k. contradiction. }
      split.
      { unfold dict_keyed. apply Forall_app. split; [exact Hkd |].
        repeat constructor. unfold key_of, new_label. simpl.
        destruct (mapped_key lb); reflexivity. }
      split.
      { intros k. rewrite !map_app, !in_app_iff, Hiff. simpl. tauto. }
      intros k l Hin. apply in_app_iff in Hin. destruct Hin as [Hin | Hin].
      * destruct (Hfirst _ _ Hin) as (pre & lb0 & post & -> & Hn & Hm & Hi).
        exists pre, lb0, (post ++ [lb]).
        rewrite <- app_assoc. repeat split; assumption.
      * destruct Hin as [Hin | []]. injection Hin as <- <-.
        exists refs, lb, []. repeat split.
        intros Hc. apply Hiff in Hc. contradiction.
Qed.

(** C6.  The labels of the output board are one canonical label per
    distinct (color, name) pair that some label reference of some card maps
    to, no pair twice and no pair missing, and the id of each is synthesized
    from the identifier of the first reference, in the order the cards are
    visited, that maps to its pair. *)
Theorem board_labels_deduplicated {R : StrRepr} (utcnow : nat -> string)
        (doc out : json) :
  main utcnow doc = Ok out ->
  exists canon,
    field "labels" out = Some (JList (map label_json canon))
    /\ NoDup (map key_of canon)
    /\ (forall k, In k (map key_of canon)
                  <-> In k (map mapped_key
                                (all_label_refs (sorted_lists doc))))
    /\ (forall l,
           In l canon ->
           exists pre lb post,
             all_label_refs (sorted_lists doc) = pre ++ lb :: post
             /\ ~ In (key_of l) (map mapped_key pre)
             /\ mapped_key lb = key_of l
             /\ lbl_id l = gen_trello_id (label_seed lb)).
Proof.
  intros H. apply main_run in H.
  destruct H as [(Hs & -> & _) | (board_id & st & xs & _ & _ & Hrun & ->)].
  - exists []. rewrite Hs. simpl. split; [reflexivity |].
    split; [constructor |]. split; [tauto |]. intros l [].
  - apply list_loop_spec in Hrun. destruct Hrun as (_ & _ & _ & _ & Hd).
    simpl in Hd.
    pose proof (fold_note_ref_spec board_id
                                   (all_label_refs (sorted_lists doc)))
      as Hspec.
    cbv zeta in Hspec. rewrite <- Hd in Hspec.
    destruct Hspec as (Hnd & Hkd & Hiff & Hfirst).
    assert (Hkeys : map key_of (map snd (board_labels_dict st))
                    = map fst (board_labels_dict st)).
    { rewrite map_map. apply map_ext_in. intros kl Hin.
      unfold dict_keyed in Hkd. rewrite Forall_forall in Hkd.
      apply Hkd. exact Hin. }
    exists (map snd (board_labels_dict st)).
    split; [simpl; rewrite map_map; reflexivity |].
    rewrite Hkeys. split; [exact Hnd |]. split; [exact Hiff |].
    intros l Hin. apply in_map_iff in Hin. destruct Hin as [[k l'] [<- Hin]].
    unfold dict_keyed in Hkd. rewrite Forall_forall in Hkd.
    rewrite (Hkd _ Hin). apply Hfirst. exact Hin.
Qed.

Lemma board_labels_deduplicated_witness :
  exists out,
    @main plain_repr Samples.clock_a Samples.doc_two_lists = Ok out
    /\ map mapped_key (all_label_refs (sorted_lists Samples.doc_two_lists))
       = [("orange", "WARNING"); ("orange", "WARNING"); ("green", "正常")]
    /\ exists canon,
        field "labels" out = Some (JList (map label_json canon))
        /\ NoDup (map key_of canon)
        /\ (forall k, In k (map key_of canon)
                      <-> In k [("orange", "WARNING"); ("orange", "WARNING");
                                ("green", "正常")]).
Proof.
  destruct (@main plain_repr Samples.clock_a Samples.doc_two_lists)
    as [out | e] eqn:E; [| vm_compute in E; discriminate E].
  exists out. split; [reflexivity |]. split; [reflexivity |].
  destruct (@board_labels_deduplicated plain_repr _ _ _ E)
    as (canon & Hl & Hnd & Hiff & _).
  exists canon. split; [exact Hl |]. split; [exact Hnd |]. exact Hiff.
Defined.


(** ** Two runs on one input *)

Lemma for_enumerate_rel {St : Type} (r : St -> St -> Prop)
      (body1 body2 : Z -> json -> St -> result St) :
  (forall i x s1 s2,
      r s1 s2 -> rel_result r (body1 i x s1) (body2 i x s2)) ->
  forall xs i s1 s2,
    r s1 s2 ->
    rel_result r (for_enumerate body1 i xs s1) (for_enumerate body2 i xs s2).
Proof.
  intros Hbody xs. induction xs as [| x xs IH]; intros i s1 s2 Hr.
  - simpl. constructor. exact Hr.
  - cbn [for_enumerate].
    destruct (Hbody i x s1 s2 Hr) as [a b Hab | e]; simpl.
    + apply IH. exact Hab.
    + constructor.
Qed.

Section TwoClocks.

Context {R : StrRepr}.
Variables clock1 clock2 : nat -> string.

Lemma card_step_stamps (board_id list_id : string) (list_pos ci : Z)
      (card_item : json) (st1 st2 : state) :
  same_but_stamps st1 st2 ->
  rel_result same_but_stamps
             (card_step clock1 board_id list_id list_pos ci card_item st1)
             (card_step clock2 board_id list_id list_pos ci card_item st2).
Proof.
  intros (Hd & Ht & Hn & Hl & Hc & Hk). unfold card_step.
  rewrite Hd, Ht, Hn, Hl, Hk.
  destruct (py_getitem card_item "id") as [v |]; simpl; [| constructor].
  destruct (py_get card_item "description" (JStr "")) as [desc |]; simpl;
    [| constructor].
  destruct (py_get card_item "due_date" JNull) as [due |]; simpl;
    [| constructor].
  destruct (normalize_due due) as [due' |]; simpl; [| constructor].
  destruct (card_labels_loop board_id card_item (board_labels_dict st2))
    as [[[d idl] copies] |]; simpl; [| constructor].
  destruct (card_checklists_loop board_id (gen_trello_id v) card_item
                                 (checklists_global st2))
    as [[chk idc] |]; simpl; [| constructor].
  destruct (py_get card_item "name" (JStr "")) as [name |]; simpl;
    [| constructor].
  destruct (py_get card_item "is_archived" (JInt 0)) as [arch |]; simpl;
    [| constructor].
  constructor. unfold same_but_stamps. simpl.
  repeat split; try reflexivity.
  rewrite !map_app, Hc. reflexivity.
Qed.

Lemma list_step_stamps (board_id : string) (li : Z) (list_item : json)
      (st1 st2 : state) :
  same_but_stamps st1 st2 ->
  rel_result same_but_stamps
             (list_step clock1 board_id li list_item st1)
             (list_step clock2 board_id li list_item st2).
Proof.
  intros (Hd & Ht & Hn & Hl & Hc & Hk). unfold list_step.
  rewrite Hd, Ht, Hn, Hl, Hk.
  destruct (py_getitem list_item "id") as [v |]; simpl; [| constructor].
  destruct (py_get list_item "name" (JStr "")) as [name |]; simpl;
    [| constructor].
  destruct (py_get list_item "is_archived" (JInt 0)) as [arch |]; simpl;
    [| constructor].
  destruct (py_get list_item "cards" JNull) as [cs |]; simpl;
    [| constructor].
  destruct (py_iter (py_or cs (JList []))) as [cards_data |]; simpl;
    [| constructor].
  apply for_enumerate_rel.
  - intros i x s1 s2 Hs. apply card_step_stamps. exact Hs.
  - unfold same_but_stamps. simpl. repeat split; try reflexivity.
    exact Hc.
Qed.

Lemma convert_stamps (doc : json) :
  rel_result (fun a b => fst a = fst b /\ same_but_stamps (snd a) (snd b))
             (convert clock1 doc) (convert clock2 doc).
Proof.
  unfold convert.
  destruct (py_getitem doc "data") as [data |]; simpl; [| constructor].
  destruct (py_getitem0 data) as [first |]; simpl; [| constructor].
  destruct (py_get first "board_id" (JInt 12345)) as [seed |]; simpl;
    [| constructor].
  destruct (sorted_by_position data) as [sorted |]; simpl; [| constructor].
  assert (H : rel_result same_but_stamps
                (for_enumerate (list_step clock1 (gen_trello_id seed)) 1
                               sorted initial_state)
                (for_enumerate (list_step clock2 (gen_trello_id seed)) 1
                               sorted initial_state)).
  { apply for_enumerate_rel.
    - intros i x s1 s2 Hs. apply list_step_stamps. exact Hs.
    - unfold same_but_stamps. repeat split. }
  destruct H as [a b Hab | e]; simpl; constructor.
  simpl. split; [reflexivity | exact Hab].
Qed.

Lemma assemble_stamps (board_id : string) (st1 st2 : state) :
  same_but_stamps st1 st2 ->
  mask_all (assemble clock1 board_id st1)
  = mask_all (assemble clock2 board_id st2).
Proof.
  intros (Hd & Ht & Hn & Hl & Hc & Hk).
  unfold assemble, mask_all, mask_board, set_field, update_field.
  rewrite Hd, Hl, Hk. cbn [assoc_set assoc_update String.eqb Ascii.eqb
                                     Bool.eqb mask_cards].
  rewrite Hc. reflexivity.
Qed.

End TwoClocks.

(** Masking a card or the board changes no field but the timestamps. *)
Lemma assoc_set_other (k k' : string) (v : json) (kvs : list (string * json)) :
  k' <> k -> assoc k' (assoc_set k v kvs) = assoc k' kvs.
Proof.
  intros Hne. induction kvs as [| [k0 v0] kvs IH]; simpl.
  - destruct (k =? k')%string eqn:E; [| reflexivity].
    apply String.eqb_eq in E. subst. contradiction.
  - destruct (k0 =? k)%string eqn:E; simpl.
    + apply String.eqb_eq in E. subst k0.
      destruct (k =? k')%string eqn:E'; [| reflexivity].
      apply String.eqb_eq in E'. subst. contradiction.
    + destruct (k0 =? k')%string; [reflexivity | exact IH].
Qed.

Lemma mask_card_other_fields (k : string) (c : json) :
  k <> "dateLastActivity" -> field k (mask_card c) = field k c.
Proof.
  intros Hne. unfold mask_card.
  destruct (field "dateLastActivity" c); [| reflexivity].
  destruct c; try reflexivity. simpl. apply assoc_set_other. exact Hne.
Qed.

Lemma mask_board_other_fields (k : string) (out : json) :
  k <> "dateLastActivity" -> k <> "dateLastView" ->
  field k (mask_board out) = field k out.
Proof.
  intros H1 H2. unfold mask_board. destruct out; try reflexivity. simpl.
  rewrite !assoc_set_other by assumption. reflexivity.
Qed.

Lemma assoc_update_other (k k' : string) (f : json -> json)
      (kvs : list (string * json)) :
  k' <> k -> assoc k' (assoc_update k f kvs) = assoc k' kvs.
Proof.
  intros Hne. induction kvs as [| [k0 v0] kvs IH]; simpl; [reflexivity |].
  destruct (k0 =? k)%string eqn:E; simpl.
  - apply String.eqb_eq in E. subst k0.
    destruct (k =? k')%string eqn:E'; [| reflexivity].
    apply String.eqb_eq in E'. subst. contradiction.
  - destruct (k0 =? k')%string; [reflexivity | exact IH].
Qed.

Lemma assoc_update_same (k : string) (f : json -> json)
      (kvs : list (string * json)) :
  assoc k (assoc_update k f kvs) = option_map f (assoc k kvs).
Proof.
  induction kvs as [| [k0 v0] kvs IH]; simpl; [reflexivity |].
  destruct (k0 =? k)%string eqn:E; simpl; rewrite E; [reflexivity | exact IH].
Qed.

(** What [mask_all] leaves of a board: every field but the two timestamps
    as it was, the cards each with every field but its timestamp as it
    was. *)
Lemma mask_all_other_fields (k : string) (out : json) :
  k <> "dateLastActivity" -> k <> "dateLastView" -> k <> "cards" ->
  field k (mask_all out) = field k out.
Proof.
  intros H1 H2 H3. unfold mask_all, mask_board.
  destruct out; try reflexivity. simpl.
  rewrite assoc_update_other by exact H3.
  rewrite !assoc_set_other by assumption. reflexivity.
Qed.

Lemma mask_all_cards (out : json) :
  field "cards" (mask_all out) = option_map mask_cards (field "cards" out).
Proof.
  unfold mask_all, mask_board. destruct out; try reflexivity. simpl.
  rewrite assoc_update_same.
  rewrite !assoc_set_other by discriminate. reflexivity.
Qed.

(** C2 (as the code has it).  Two runs on one input, whatever the clock
    reads in each, both raise the same exception or both return, and the two
    boards are identical once the board's dateLastActivity and dateLastView
    and the dateLastActivity of every card are masked: the script stamps
    each card with the clock too, so these, not the two board fields alone,
    are the outputs that depend on the clock. *)
Theorem runs_agree_up_to_timestamps {R : StrRepr}
        (clock1 clock2 : nat -> string) (doc : json) :
  map_result mask_all (main clock1 doc) = map_result mask_all (main clock2 doc).
Proof.
  unfold main.
  destruct (py_get doc "data" JNull) as [data |]; cbn [bind map_result];
    [| reflexivity].
  destruct (truthy data); cbn [negb]; [| reflexivity].
  destruct (convert_stamps clock1 clock2 doc) as [[b1 s1] [b2 s2] [Hb Hs] | e];
    cbn [bind map_result]; [| reflexivity].
  cbn [fst snd] in Hb, Hs. subst b2.
  rewrite (assemble_stamps clock1 clock2 b1 s1 s2 Hs). reflexivity.
Qed.

(** C2 as stated fails: with the two board fields masked, two runs on the
    one-card document still differ, in the dateLastActivity of the card. *)
Lemma board_mask_counterexample :
  exists out1 out2 c1 c2,
    @main plain_repr Samples.clock_a Samples.doc_one_card = Ok out1
    /\ @main plain_repr Samples.clock_b Samples.doc_one_card = Ok out2
    /\ field "cards" (mask_board out1) = Some (JList [c1])
    /\ field "cards" (mask_board out2) = Some (JList [c2])
    /\ field "dateLastActivity" c1 = Some (JStr "T0Z")
    /\ field "dateLastActivity" c2 = Some (JStr "U0Z")
    /\ mask_board out1 <> mask_board out2.
Proof.
  eexists _, _, _, _.
  split; [vm_compute; reflexivity |].
  split; [vm_compute; reflexivity |].
  split; [vm_compute; reflexivity |].
  split; [vm_compute; reflexivity |].
  split; [reflexivity |]. split; [reflexivity |].
  intros H. apply (f_equal (field "cards")) in H. vm_compute in H.
  discriminate H.
Qed.


(** ** Missing names and descriptions *)






(** ** When the conversion fails *)





Section Totality.

Context {R : StrRepr}.
Variable utcnow : nat -> string.










End Totality.





(** ** Documents without data, documents of the wrong shape *)

Lemma utf8_chars_nonempty (c : ascii) (s : string) :
  utf8_chars (String c s) <> [].
Proof.
  unfold utf8_chars. cbn [split_conts].
  destruct (split_conts s) as [p chs].
  destruct (is_cont c); discriminate.
Qed.

(** X1.  A document whose [data] is absent or falsy (null, an empty list,
    an empty string, 0, false, an empty dict) is converted without error to
    the minimal board, whatever the clock reads; and the board returned is
    named "TrelloBoard" exactly in that case. *)
Theorem main_without_data {R : StrRepr} (utcnow : nat -> string)
        (kvs : list (string * json)) :
  (truthy (match assoc "data" kvs with Some v => v | None => JNull end)
   = false ->
   main utcnow (JDict kvs) = Ok empty_board)
  /\ (forall out,
         main utcnow (JDict kvs) = Ok out ->
         (field "name" out = Some (JStr "TrelloBoard")
          <-> truthy (match assoc "data" kvs with
                      | Some v => v
                      | None => JNull
                      end) = false)).
Proof.
  split.
  - intros Hf. unfold main. rewrite py_get_dict. cbn [bind].
    rewrite Hf. reflexivity.
  - intros out H. apply main_inv in H. destruct H as [kvs' [Hk H]].
    injection Hk as <-.
    destruct H as [[Hf ->] | (board_id & st & Hc & ->)].
    + split; [intros _; exact Hf | intros _; reflexivity].
    + apply convert_inv in Hc.
      destruct Hc as (first & rest & fkvs & sorted & Hd & _).
      rewrite Hd. split; intros H; discriminate H.
Qed.

Lemma main_without_data_witness :
  truthy (match assoc "data" [("data", JNull)] with
          | Some v => v
          | None => JNull
          end) = false
  /\ @main plain_repr Samples.clock_a (JDict [("data", JNull)])
     = Ok (@empty_board plain_repr).
Proof.
  split; [reflexivity |].
  exact (proj1 (@main_without_data plain_repr Samples.clock_a
                                   [("data", JNull)]) eq_refl).
Defined.

(** X2.  What [main] raises on a document of the wrong shape: a document
    that is not a dict raises AttributeError; a [data] that is a non-empty
    dict raises KeyError for the key 0; a [data] that is a non-empty string
    raises AttributeError; a [data] that is a non-zero number or [true]
    raises TypeError; a first record that is not a dict raises
    AttributeError. *)
Theorem main_wrong_shape {R : StrRepr} (utcnow : nat -> string) :
  (forall doc, is_dict doc = false -> main utcnow doc = Err AttributeError)
  /\ (forall kvs kv data,
         assoc "data" kvs = Some (JDict (kv :: data)) ->
         main utcnow (JDict kvs) = Err (KeyError (JInt 0)))
  /\ (forall kvs c s,
         assoc "data" kvs = Some (JStr (String c s)) ->
         main utcnow (JDict kvs) = Err AttributeError)
  /\ (forall kvs v n,
         assoc "data" kvs = Some v ->
         (v = JBool true \/ (v = JInt n /\ n <> 0)) ->
         main utcnow (JDict kvs) = Err TypeError)
  /\ (forall kvs x rest,
         assoc "data" kvs = Some (JList (x :: rest)) ->
         is_dict x = false ->
         main utcnow (JDict kvs) = Err AttributeError).
Proof.
  split; [| split; [| split; [| split]]].
  - intros doc Hd. destruct doc; try reflexivity. discriminate Hd.
  - intros kvs kv data Hd. unfold main. rewrite py_get_dict, Hd.
    cbn [bind truthy negb]. unfold convert. cbn [py_getitem].
    rewrite Hd. reflexivity.
  - intros kvs c s Hd. unfold main. rewrite py_get_dict, Hd.
    cbn [bind truthy negb String.eqb]. unfold convert. cbn [py_getitem].
    rewrite Hd. cbn [bind py_getitem0].
    destruct (utf8_chars (String c s)) eqn:E.
    + exfalso. exact (utf8_chars_nonempty c s E).
    + reflexivity.
  - intros kvs v n Hd Hv. unfold main. rewrite py_get_dict, Hd.
    destruct Hv as [-> | [-> Hn]].
    + cbn [bind truthy negb]. unfold convert. cbn [py_getitem].
      rewrite Hd. reflexivity.
    + cbn [bind truthy]. apply Z.eqb_neq in Hn. rewrite Hn.
      cbn [negb]. unfold convert. cbn [py_getitem]. rewrite Hd. reflexivity.
  - intros kvs x rest Hd Hx. unfold main. rewrite py_get_dict, Hd.
    cbn [bind truthy negb]. unfold convert. cbn [py_getitem].
    rewrite Hd. cbn [bind py_getitem0].
    destruct x; try reflexivity. discriminate Hx.
Qed.

Lemma main_wrong_shape_witness :
  assoc "data" [("data", JDict [("a", JInt 1)])]
  = Some (JDict [("a", JInt 1)])
  /\ @main plain_repr Samples.clock_a
           (JDict [("data", JDict [("a", JInt 1)])])
     = Err (KeyError (JInt 0)).
Proof.
  assert (Hd : assoc "data" [("data", JDict [("a", JInt 1)])]
               = Some (JDict [("a", JInt 1)])) by reflexivity.
  split; [exact Hd |].
  exact (proj1 (proj2 (@main_wrong_shape plain_repr Samples.clock_a))
               _ _ _ Hd).
Defined.


(** ** Due dates and label records: when they fail *)

Lemma ends_in_Z_app (s : string) : ends_in_Z (s ++ "Z")%string.
Proof. exists s. reflexivity. Qed.

(** X3.  [normalize_due] is idempotent, a string it returns is empty or
    ends in "Z", and it raises AttributeError exactly on a truthy value
    that is not a string (a number, [true], a non-empty list or dict). *)
Theorem normalize_due_idempotent :
  (forall v w, normalize_due v = Ok w -> normalize_due w = Ok w)
  /\ (forall v s, normalize_due v = Ok (JStr s) -> s = "" \/ ends_in_Z s)
  /\ (forall v, truthy v = true -> is_str v = false ->
                normalize_due v = Err AttributeError)
  /\ (forall v, truthy v = false \/ is_str v = true ->
                exists w, normalize_due v = Ok w).
Proof.
  split; [| split; [| split]].
  - intros v w H. unfold normalize_due in H.
    destruct (truthy v) eqn:Et.
    + destruct v; try discriminate H.
      destruct (endswith_Z s) eqn:Ez; cbn [negb] in H;
        apply Ok_inj in H; subst w.
      * unfold normalize_due. rewrite Et, Ez. reflexivity.
      * unfold normalize_due.
        rewrite (proj2 (endswith_Z_iff _) (ends_in_Z_app s)).
        cbn [negb].
        destruct (truthy (JStr (s ++ "Z")%string)); reflexivity.
    + apply Ok_inj in H. subst w. unfold normalize_due. rewrite Et.
      reflexivity.
  - intros v s H. unfold normalize_due in H.
    destruct (truthy v) eqn:Et.
    + destruct v; try discriminate H.
      destruct (endswith_Z s0) eqn:Ez; cbn [negb] in H;
        apply Ok_inj in H; injection H as <-.
      * right. apply endswith_Z_iff. exact Ez.
      * right. apply ends_in_Z_app.
    + apply Ok_inj in H. subst v. left.
      simpl in Et. destruct s; [reflexivity | discriminate Et].
  - intros v Ht Hs. unfold normalize_due. rewrite Ht.
    destruct v; try reflexivity. discriminate Hs.
  - intros v [Hf | Hs]; unfold normalize_due.
    + rewrite Hf. eexists. reflexivity.
    + destruct v; try discriminate Hs.
      destruct (truthy (JStr s)); [| eexists; reflexivity].
      destruct (negb (endswith_Z s)); eexists; reflexivity.
Qed.

Lemma normalize_due_idempotent_witness :
  normalize_due (JStr "2024-05-01") = Ok (JStr "2024-05-01Z")
  /\ normalize_due (JStr "2024-05-01Z") = Ok (JStr "2024-05-01Z").
Proof.
  assert (H : normalize_due (JStr "2024-05-01") = Ok (JStr "2024-05-01Z"))
    by reflexivity.
  split; [exact H |].
  exact (proj1 normalize_due_idempotent _ _ H).
Defined.




(** ** More of what one turn of each loop does *)

Lemma py_eq_one (v : json) : py_eq v (JInt 1) = is_one v.
Proof. destruct v; reflexivity. Qed.


Lemma for_enumerate_preserves {St : Type} (Q : St -> Prop)
      (body : Z -> json -> St -> result St) :
  (forall i x s s', Q s -> body i x s = Ok s' -> Q s') ->
  forall xs i s s', Q s -> for_enumerate body i xs s = Ok s' -> Q s'.
Proof.
  intros Hstep xs. induction xs as [| x xs IH]; intros i s s' HQ H.
  - simpl in H. apply Ok_inj in H. subst s'. exact HQ.
  - cbn [for_enumerate] in H. bind_inv H.
    eapply IH; [| exact H]. eapply Hstep; eassumption.
Qed.

Section MoreSteps.

Context {R : StrRepr}.
Variable utcnow : nat -> string.

Lemma check_item_step_fields (ch_id : string) (cii : Z) (ci_item : json)
      (items items' : list json) :
  check_item_step ch_id cii ci_item items = Ok items' ->
  exists it,
    items' = items ++ [it]
    /\ item_view it = expected_item ch_id (cii, ci_item)
    /\ field "state" it
       = Some (JStr (if is_one (flag "is_completed" ci_item)
                     then "complete" else "incomplete")).
Proof.
  unfold check_item_step. intros H.
  bind_inv H. apply py_getitem_ok in Hb. destruct Hb as [kvs [-> Hid]].
  rewrite !py_get_dict in H. cbn [bind] in H. apply Ok_inj in H.
  subst items'. eexists. split; [reflexivity |].
  unfold item_view, expected_item, pos_field, id_of, flag.
  cbn [field fst snd]. rewrite Hid, py_eq_one.
  split; reflexivity.
Qed.

Lemma items_loop_spec (ch_id : string) (xs : list json) :
  forall (i : Z) (acc items : list json),
    for_enumerate (check_item_step ch_id) i xs acc = Ok items ->
    exists new,
      items = acc ++ new
      /\ map item_view new = map (expected_item ch_id) (enumerate i xs).
Proof.
  induction xs as [| x xs IH]; intros i acc items H.
  - simpl in H. apply Ok_inj in H. subst items. exists [].
    rewrite app_nil_r. split; reflexivity.
  - cbn [for_enumerate] in H. bind_inv H.
    apply check_item_step_fields in Hb.
    destruct Hb as (it & -> & Hv & _).
    apply IH in H. destruct H as (new & -> & Hnew).
    exists (it :: new). rewrite <- app_assoc. split; [reflexivity |].
    cbn [map enumerate]. rewrite Hv, Hnew. reflexivity.
Qed.

Lemma checklist_step_fields (board_id card_id : string) (ch_i : Z)
      (ch : json) (cl ids cl' ids' : list json) :
  checklist_step board_id card_id ch_i ch (cl, ids) = Ok (cl', ids') ->
  exists c,
    cl' = cl ++ [c]
    /\ ids' = ids ++ [JStr (gen_trello_id (id_of ch))]
    /\ checklist_view c = expected_checklist card_id (ch_i, ch)
    /\ has_board board_id c
    /\ items_match ch c.
Proof.
  unfold checklist_step. intros H.
  bind_inv H. apply py_getitem_ok in Hb. destruct Hb as [kvs [-> Hid]].
  rewrite !py_get_dict in H. cbn [bind] in H.
  bind_inv H. apply Ok_inj in H. injection H as <- <-.
  assert (Hidof : id_of (JDict kvs) = a)
    by (unfold id_of, field; rewrite Hid; reflexivity).
  eexists. split; [reflexivity |]. rewrite Hidof.
  split; [reflexivity |].
  split; [unfold expected_checklist; cbn [fst snd]; rewrite Hidof;
          reflexivity |].
  split; [reflexivity |].
  unfold items_match, list_field, items_of. rewrite Hidof.
  split; [reflexivity |].
  cbn [field assoc String.eqb Ascii.eqb Bool.eqb].
  destruct (assoc "checklists_items" kvs) as [v |] eqn:E.
  - destruct (truthy v) eqn:Et.
    + cbn [bind] in Hb. bind_inv Hb. apply py_getitem_ok in Hb0.
      destruct Hb0 as (kvs' & Hk & Hv). injection Hk as <-.
      rewrite E in Hv. injection Hv as <-.
      bind_inv Hb. unfold elements. rewrite Hb0.
      apply items_loop_spec in Hb. destruct Hb as (new & -> & Hnew).
      exact Hnew.
    + apply Ok_inj in Hb. subst a0. reflexivity.
  - cbn [truthy] in Hb. apply Ok_inj in Hb. subst a0. reflexivity.
Qed.

Lemma checklists_loop_spec (board_id card_id : string) (chs : list json) :
  forall (i : Z) (cl ids cl' ids' : list json),
    for_enumerate (checklist_step board_id card_id) i chs (cl, ids)
    = Ok (cl', ids') ->
    exists new,
      cl' = cl ++ new
      /\ ids' = ids ++ map (fun ch => JStr (gen_trello_id (id_of ch))) chs
      /\ map checklist_view new
         = map (expected_checklist card_id) (enumerate i chs)
      /\ Forall (has_board board_id) new
      /\ Forall2 items_match chs new.
Proof.
  induction chs as [| ch chs IH]; intros i cl ids cl' ids' H.
  - simpl in H. apply Ok_inj in H. injection H as <- <-. exists [].
    rewrite !app_nil_r. repeat split; constructor.
  - cbn [for_enumerate] in H. bind_inv H. destruct a as [cl1 ids1].
    apply checklist_step_fields in Hb.
    destruct Hb as (c & -> & -> & Hv & Hboard & Hitems).
    apply IH in H. destruct H as (new & -> & -> & Hnew & Hb' & Hi').
    exists (c :: new). rewrite <- !app_assoc.
    split; [reflexivity |]. split; [reflexivity |].
    split; [cbn [map enumerate]; rewrite Hv, Hnew; reflexivity |].
    split; constructor; assumption.
Qed.

Lemma card_checklists_loop_spec (board_id card_id : string)
      (card_item : json) (cl cl' ids' : list json) :
  card_checklists_loop board_id card_id card_item cl = Ok (cl', ids') ->
  exists new,
    cl' = cl ++ new
    /\ ids' = map (fun ch => JStr (gen_trello_id (id_of ch)))
                  (checklists_of card_item)
    /\ map checklist_view new
       = map (expected_checklist card_id)
             (enumerate 1 (checklists_of card_item))
    /\ Forall (has_board board_id) new
    /\ Forall2 items_match (checklists_of card_item) new.
Proof.
  unfold card_checklists_loop. intros H. bind_inv H.
  apply py_get_ok in Hb. destruct Hb as [kvs [-> ->]].
  unfold checklists_of, field.
  destruct (assoc "cards_checklists" kvs) as [v |] eqn:E.
  - destruct (truthy v) eqn:Et.
    + bind_inv H. apply py_getitem_ok in Hb.
      destruct Hb as (kvs' & Hk & Hv). injection Hk as <-.
      rewrite E in Hv. injection Hv as <-.
      bind_inv H. unfold elements. rewrite Hb.
      apply checklists_loop_spec in H. exact H.
    + apply Ok_inj in H. injection H as <- <-. exists [].
      rewrite app_nil_r. repeat split; constructor.
  - cbn [truthy] in H. apply Ok_inj in H. injection H as <- <-.
    exists []. rewrite app_nil_r. repeat split; constructor.
Qed.

Lemma card_step_fields (board_id list_id : string) (list_pos ci : Z)
      (card_item : json) (st st' : state) :
  card_step utcnow board_id list_id list_pos ci card_item st = Ok st' ->
  exists id_labels card_labels id_checklists c,
    card_labels_loop board_id card_item (board_labels_dict st)
    = Ok (board_labels_dict st', id_labels, card_labels)
    /\ card_checklists_loop board_id (gen_trello_id (id_of card_item))
                            card_item (checklists_global st)
       = Ok (checklists_global st', id_checklists)
    /\ lists st' = lists st
    /\ cards st' = cards st ++ [c]
    /\ ticks st' = S (ticks st)
    /\ field "id" c = Some (JStr (gen_trello_id (id_of card_item)))
    /\ has_board board_id c
    /\ field "idList" c = Some (JStr list_id)
    /\ field "closed" c
       = Some (JBool (is_one (flag "is_archived" card_item)))
    /\ field "shortLink" c
       = Some (JStr (gen_short_link (gen_trello_id (id_of card_item))))
    /\ field "idLabels" c = Some (JList id_labels)
    /\ field "labels" c = Some (JList card_labels)
    /\ field "idChecklists" c = Some (JList id_checklists)
    /\ field "dateLastActivity" c
       = Some (JStr (utcnow (ticks st) ++ "Z")%string).
Proof.
  unfold card_step. intros H.
  bind_inv H. apply py_getitem_ok in Hb. destruct Hb as [kvs [-> Hid]].
  rewrite !py_get_dict in H. cbn [bind] in H.
  bind_inv H. bind_inv H. destruct a1 as [[d idl] copies].
  bind_inv H. destruct a1 as [chk idc]. apply Ok_inj in H. subst st'.
  assert (Hidof : id_of (JDict kvs) = a)
    by (unfold id_of, field; rewrite Hid; reflexivity).
  rewrite Hidof. eexists idl, copies, idc, _.
  cbn [board_labels_dict ticks card_counter lists cards checklists_global].
  split; [exact Hb0 |]. split; [exact Hb1 |].
  split; [reflexivity |]. split; [reflexivity |].
  split; [reflexivity |]. split; [reflexivity |].
  split; [reflexivity |]. split; [reflexivity |].
  split; [| repeat split; reflexivity].
  unfold flag. cbn [field]. rewrite <- py_eq_one. reflexivity.
Qed.

Lemma list_step_fields (board_id : string) (li : Z) (list_item : json)
      (st st' : state) :
  list_step utcnow board_id li list_item st = Ok st' ->
  exists l,
    field "id" l = Some (JStr (gen_trello_id (id_of list_item)))
    /\ has_board board_id l
    /\ field "closed" l
       = Some (JBool (is_one (flag "is_archived" list_item)))
    /\ for_enumerate
         (card_step utcnow board_id (gen_trello_id (id_of list_item))
                    (16384 * li)) 1
         (cards_of list_item)
         (mkState (board_labels_dict st) (ticks st) (card_counter st)
                  (lists st ++ [l]) (cards st) (checklists_global st))
       = Ok st'.
Proof.
  intros H. pose proof (list_step_inv _ _ _ _ _ _ H) as Hinv.
  destruct Hinv as (kvs & v & l0 & -> & Hid & _ & _ & _ & _ & Hloop0).
  assert (Hidof : id_of (JDict kvs) = v)
    by (unfold id_of, field; rewrite Hid; reflexivity).
  rewrite Hidof. clear Hloop0 l0.
  unfold list_step in H. cbn [py_getitem] in H. rewrite Hid in H.
  cbn [bind] in H. rewrite !py_get_dict in H. cbn [bind] in H.
  bind_inv H.
  assert (Hcards : a = cards_of (JDict kvs)).
  { unfold cards_of, field, elements.
    destruct (assoc "cards" kvs) as [x |]; unfold py_or in Hb.
    - destruct (truthy x).
      + rewrite Hb. reflexivity.
      + simpl in Hb. inversion Hb. reflexivity.
    - simpl in Hb. inversion Hb. reflexivity. }
  subst a.
  match type of H with
  | context [lists st ++ [?l]] => exists l
  end.
  split; [reflexivity |]. split; [reflexivity |].
  split; [| exact H].
  unfold flag. cbn [field]. rewrite <- py_eq_one. reflexivity.
Qed.

(** A property of the state that every card turn and every new list
    keep holds when the loops end. *)
Lemma run_preserves (Q : state -> Prop) (board_id : string) :
  (forall list_id list_pos ci card_item st st',
      Q st ->
      In (Some (JStr list_id)) (ids_of (lists st)) ->
      card_step utcnow board_id list_id list_pos ci card_item st = Ok st' ->
      Q st') ->
  (forall st l,
      Q st -> has_board board_id l ->
      (exists id, field "id" l = Some (JStr id)) ->
      Q (mkState (board_labels_dict st) (ticks st) (card_counter st)
                 (lists st ++ [l]) (cards st) (checklists_global st))) ->
  forall xs i st st',
    Q st -> for_enumerate (list_step utcnow board_id) i xs st = Ok st' ->
    Q st'.
Proof.
  intros Hcard Hlist. apply for_enumerate_preserves.
  intros i x s s' HQ H. apply list_step_fields in H.
  destruct H as (l & Hid & Hb & _ & Hloop).
  set (lid := gen_trello_id (id_of x)) in *.
  pose (Q' := fun s0 : state =>
                Q s0 /\ In (Some (JStr lid)) (ids_of (lists s0))).
  assert (HQ' : Q' s').
  { revert Hloop. apply (for_enumerate_preserves Q').
    - intros j c s1 s2 [HQ1 Hin] Hs. split.
      + eapply Hcard; eassumption.
      + apply card_step_fields in Hs.
        destruct Hs as (idl & cl & idc & cj & _ & _ & Hl & _).
        rewrite Hl. exact Hin.
    - split.
      + apply Hlist; [exact HQ | exact Hb |]. eexists. exact Hid.
      + cbn [lists]. unfold ids_of. rewrite map_app, in_app_iff.
        right. left. exact Hid. }
  exact (proj1 HQ').
Qed.

End MoreSteps.


(** ** Labels copied into cards *)

Lemma labels_set_Forall (F : TargetLabel -> Prop) (key : label_key)
      (l : TargetLabel) (d : labels_dict) :
  Forall (fun kl => F (snd kl)) d -> F l ->
  Forall (fun kl => F (snd kl)) (labels_set key l d).
Proof.
  intros Hd Hl. induction d as [| [k l0] d IH]; simpl; [constructor |].
  apply Forall_cons_iff in Hd. destruct Hd as [Hh Ht].
  destruct (key_eqb k key); constructor; auto.
Qed.

Lemma labels_set_incr_ids (key : label_key) (l0 : TargetLabel)
      (d : labels_dict) :
  labels_find key d = Some l0 ->
  label_ids (labels_set key (incr_uses l0) d) = label_ids d.
Proof.
  unfold label_ids. induction d as [| [k l1] d IH]; simpl; intros H.
  - discriminate H.
  - destruct (key_eqb k key).
    + injection H as ->. reflexivity.
    + simpl. rewrite IH by exact H. reflexivity.
Qed.

Section LabelCopies.

Context {R : StrRepr}.
Variable board_id : string.

Lemma note_ref_find (d : labels_dict) (lb : json) :
  exists l,
    labels_find (mapped_key lb) (note_ref board_id d lb) = Some l
    /\ lbl_uses l = uses_of (mapped_key lb) d + 1.
Proof.
  unfold note_ref, uses_of.
  destruct (labels_find (mapped_key lb) d) as [l0 |] eqn:E.
  - exists (incr_uses l0). split; [| reflexivity].
    rewrite (labels_find_set _ _ _ _ _ E), key_eqb_refl. reflexivity.
  - exists (new_label board_id lb). split; [| reflexivity].
    rewrite labels_find_app, E. simpl. rewrite key_eqb_refl. reflexivity.
Qed.

Lemma note_ref_on_board (d : labels_dict) (lb : json) :
  labels_on_board board_id d ->
  labels_on_board board_id (note_ref board_id d lb).
Proof.
  unfold labels_on_board, note_ref. intros Hd.
  destruct (labels_find (mapped_key lb) d) as [l0 |] eqn:E.
  - apply (labels_set_Forall (fun l => lbl_idBoard l = board_id));
      [exact Hd |].
    apply labels_find_In in E. rewrite Forall_forall in Hd.
    exact (Hd _ E).
  - apply Forall_app. split; [exact Hd |]. repeat constructor.
Qed.

Lemma note_ref_ids_incl (d : labels_dict) (lb : json) :
  incl (label_ids d) (label_ids (note_ref board_id d lb)).
Proof.
  unfold note_ref.
  destruct (labels_find (mapped_key lb) d) as [l0 |] eqn:E.
  - rewrite (labels_set_incr_ids _ _ _ E). apply incl_refl.
  - unfold label_ids. rewrite map_app. apply incl_appl, incl_refl.
Qed.

Lemma fold_note_ref_ids_incl (refs : list json) (d : labels_dict) :
  incl (label_ids d) (label_ids (fold_left (note_ref board_id) refs d)).
Proof.
  revert d. induction refs as [| lb refs IH]; intros d; simpl.
  - apply incl_refl.
  - eapply incl_tran; [apply note_ref_ids_incl | apply IH].
Qed.

Lemma fold_note_ref_on_board (refs : list json) (d : labels_dict) :
  labels_on_board board_id d ->
  labels_on_board board_id (fold_left (note_ref board_id) refs d).
Proof.
  revert d. induction refs as [| lb refs IH]; intros d Hd; simpl.
  - exact Hd.
  - apply IH, note_ref_on_board, Hd.
Qed.

(** The loop over the label references of a card copies the snapshots
    into the card. *)
Lemma labels_loop_snapshots (refs : list json) :
  forall (d d' : labels_dict) (ids ids' copies copies' : list json),
    for_each (label_step board_id) refs (d, ids, copies)
    = Ok (d', ids', copies') ->
    ids' = ids ++ map (fun l => JStr (lbl_id l))
                      (snapshots board_id d refs)
    /\ copies' = copies ++ map label_json (snapshots board_id d refs).
Proof.
  induction refs as [| lb refs IH]; intros d d' ids ids' copies copies' H.
  - simpl in H. apply Ok_inj in H. injection H as _ <- <-.
    simpl. rewrite !app_nil_r. split; reflexivity.
  - cbn [for_each] in H. bind_inv H. destruct a as [[d1 ids1] copies1].
    apply label_step_spec in Hb.
    destruct Hb as (-> & l & Hfind & -> & -> & _).
    apply IH in H. destruct H as [-> ->].
    cbn [snapshots]. rewrite Hfind. cbn [map].
    rewrite <- !app_assoc. split; reflexivity.
Qed.

Lemma card_labels_loop_snapshots (card_item : json) (d d' : labels_dict)
      (ids copies : list json) :
  card_labels_loop board_id card_item d = Ok (d', ids, copies) ->
  ids = map (fun l => JStr (lbl_id l))
            (snapshots board_id d (label_refs card_item))
  /\ copies = map label_json (snapshots board_id d (label_refs card_item)).
Proof.
  unfold card_labels_loop. intros H. bind_inv H.
  apply py_get_ok in Hb. destruct Hb as [kvs [-> ->]].
  unfold label_refs, field.
  destruct (assoc "cards_labels" kvs) as [v |] eqn:E.
  - destruct (truthy v) eqn:Et.
    + bind_inv H. apply py_getitem_ok in Hb.
      destruct Hb as (kvs' & Hk & Hv). injection Hk as <-.
      rewrite E in Hv. injection Hv as <-.
      bind_inv H. unfold elements. rewrite Hb.
      apply labels_loop_snapshots in H. exact H.
    + apply Ok_inj in H. injection H as _ <- <-. split; reflexivity.
  - cbn [truthy] in H. apply Ok_inj in H. injection H as _ <- <-.
    split; reflexivity.
Qed.

Lemma snapshots_length (refs : list json) (d : labels_dict) :
  List.length (snapshots board_id d refs) = List.length refs.
Proof.
  revert d. induction refs as [| lb refs IH]; intros d; [reflexivity |].
  cbn [snapshots]. destruct (note_ref_find d lb) as (l & Hl & _).
  rewrite Hl. cbn [List.length]. rewrite IH. reflexivity.
Qed.

Lemma snapshots_on_board (refs : list json) (d : labels_dict) :
  labels_on_board board_id d ->
  Forall (fun l => lbl_idBoard l = board_id) (snapshots board_id d refs).
Proof.
  revert d. induction refs as [| lb refs IH]; intros d Hd; [constructor |].
  cbn [snapshots]. pose proof (note_ref_on_board d lb Hd) as Hd1.
  destruct (labels_find (mapped_key lb) (note_ref board_id d lb))
    as [l |] eqn:E; [| apply IH; exact Hd1].
  constructor; [| apply IH; exact Hd1].
  apply labels_find_In in E. unfold labels_on_board in Hd1.
  rewrite Forall_forall in Hd1. exact (Hd1 _ E).
Qed.

Lemma snapshots_ids (refs : list json) (d : labels_dict) :
  Forall (fun l => In (JStr (lbl_id l))
                      (label_ids (fold_left (note_ref board_id) refs d)))
         (snapshots board_id d refs).
Proof.
  revert d. induction refs as [| lb refs IH]; intros d; [constructor |].
  cbn [snapshots fold_left].
  destruct (labels_find (mapped_key lb) (note_ref board_id d lb))
    as [l |] eqn:E; [| apply IH].
  constructor; [| apply IH].
  apply fold_note_ref_ids_incl. apply labels_find_In in E.
  unfold label_ids.
  apply (in_map (fun kl => JStr (lbl_id (snd kl)))) in E. exact E.
Qed.

Lemma uses_of_note_ref_seen (d : labels_dict) (lb : json) (k : label_key) :
  uses_of k (note_ref board_id d lb)
  = uses_of k d + count_key k [mapped_key lb].
Proof.
  rewrite uses_note_ref. simpl. lia.
Qed.

Lemma count_key_app (k : label_key) (xs ys : list label_key) :
  count_key k (xs ++ ys) = count_key k xs + count_key k ys.
Proof.
  induction xs as [| x xs IH]; simpl; [reflexivity |]. rewrite IH. lia.
Qed.

Lemma snapshots_uses (refs : list json) :
  forall (d0 d : labels_dict) (seen : list label_key),
    (forall k, uses_of k d = uses_of k d0 + count_key k seen) ->
    map lbl_uses (snapshots board_id d refs)
    = frozen_uses (fun k => uses_of k d0) seen (map mapped_key refs).
Proof.
  induction refs as [| lb refs IH]; intros d0 d seen Hd; [reflexivity |].
  cbn [snapshots map frozen_uses].
  destruct (note_ref_find d lb) as (l & Hl & Hu). rewrite Hl.
  cbn [map]. rewrite Hu, Hd. f_equal.
  apply IH. intros k. rewrite uses_of_note_ref_seen, Hd, count_key_app.
  lia.
Qed.

Lemma snapshots_keys (refs : list json) (d : labels_dict) :
  dict_keyed d ->
  map key_of (snapshots board_id d refs) = map mapped_key refs.
Proof.
  revert d. induction refs as [| lb refs IH]; intros d Hd; [reflexivity |].
  cbn [snapshots map].
  assert (Hd1 : dict_keyed (note_ref board_id d lb)).
  { unfold note_ref.
    destruct (labels_find (mapped_key lb) d) as [l0 |] eqn:E.
    - apply labels_set_keyed; [exact Hd |].
      apply (labels_find_keyed _ _ _ Hd E).
    - unfold dict_keyed. apply Forall_app. split; [exact Hd |].
      repeat constructor. unfold key_of, new_label. simpl.
      destruct (mapped_key lb); reflexivity. }
  destruct (note_ref_find d lb) as (l & Hl & _). rewrite Hl.
  cbn [map]. rewrite (labels_find_keyed _ _ _ Hd1 Hl), (IH _ Hd1).
  reflexivity.
Qed.

End LabelCopies.


(** ** Integrity of the output board *)

Lemma list_field_some (k : string) (o : json) (xs : list json) :
  field k o = Some (JList xs) -> list_field k o = xs.
Proof. unfold list_field. intros ->. reflexivity. Qed.

Lemma has_board_label_json (board_id : string) (l : TargetLabel) :
  lbl_idBoard l = board_id -> has_board board_id (label_json l).
Proof. intros <-. reflexivity. Qed.

(** X5.  The labels written into a card are snapshots taken as the
    references are processed: [idLabels] and [labels] run in parallel, one
    entry per reference in source order, each copy has the (color, name)
    pair its reference maps to and the id of a canonical label of the
    board, and its [uses] is frozen at what the canonical label had before
    the card plus the references to the same pair up to and including its
    own. *)
Theorem card_label_copies {R : StrRepr} (utcnow : nat -> string)
        (board_id list_id : string) (list_pos ci : Z) (card_item : json)
        (st st' : state) :
  card_step utcnow board_id list_id list_pos ci card_item st = Ok st' ->
  dict_keyed (board_labels_dict st) ->
  exists c ls,
    cards st' = cards st ++ [c]
    /\ field "idLabels" c = Some (JList (map (fun l => JStr (lbl_id l)) ls))
    /\ field "labels" c = Some (JList (map label_json ls))
    /\ map key_of ls = map mapped_key (label_refs card_item)
    /\ map lbl_uses ls
       = frozen_uses (fun k => uses_of k (board_labels_dict st)) []
                     (map mapped_key (label_refs card_item))
    /\ Forall (fun l => In (JStr (lbl_id l))
                           (label_ids (board_labels_dict st'))) ls.
Proof.
  intros H Hk. apply card_step_fields in H.
  destruct H as (idl & copies & idc & c & Hlab & _ & _ & Hc & _ & _ & _ & _
                 & _ & _ & Hidl & Hcopies & _).
  pose proof (card_labels_loop_spec _ _ _ _ _ _ Hlab) as Hd.
  apply card_labels_loop_snapshots in Hlab. destruct Hlab as [-> ->].
  exists c, (snapshots board_id (board_labels_dict st) (label_refs card_item)).
  split; [exact Hc |]. split; [exact Hidl |]. split; [exact Hcopies |].
  split; [apply snapshots_keys; exact Hk |].
  split.
  - apply snapshots_uses. intros k. simpl. lia.
  - rewrite Hd. apply snapshots_ids.
Qed.

Lemma card_label_copies_witness :
  exists st',
    @card_step plain_repr Samples.clock_a "board" "list" 16384 1
               Samples.card_two_refs initial_state = Ok st'
    /\ dict_keyed (board_labels_dict initial_state)
    /\ exists c ls,
        cards st' = cards initial_state ++ [c]
        /\ field "labels" c = Some (JList (map label_json ls))
        /\ map lbl_uses ls = [1; 2].
Proof.
  destruct (@card_step plain_repr Samples.clock_a "board" "list" 16384 1
                       Samples.card_two_refs initial_state)
    as [st' | e] eqn:E; [| vm_compute in E; discriminate E].
  assert (Hk : dict_keyed (board_labels_dict initial_state)) by constructor.
  exists st'. split; [reflexivity |]. split; [exact Hk |].
  destruct (@card_label_copies plain_repr _ _ _ _ _ _ _ _ E Hk)
    as (c & ls & Hc & _ & Hl & _ & Hu & _).
  exists c, ls. split; [exact Hc |]. split; [exact Hl |].
  rewrite Hu. reflexivity.
Defined.

Section Integrity.

Context {R : StrRepr}.
Variable utcnow : nat -> string.
Variable board_id : string.

Lemma card_step_on_board (list_id : string) (list_pos ci : Z)
      (card_item : json) (st st' : state) :
  all_on_board board_id st ->
  card_step utcnow board_id list_id list_pos ci card_item st = Ok st' ->
  all_on_board board_id st'.
Proof.
  intros (Hl & Hc & Hk & Hd & Hcopies) H. apply card_step_fields in H.
  destruct H as (idl & copies & idc & c & Hlab & Hchk & Hl' & Hc' & _ & _
                 & Hb & _ & _ & _ & _ & Hcl & _).
  pose proof (card_labels_loop_spec _ _ _ _ _ _ Hlab) as Hd'.
  apply card_labels_loop_snapshots in Hlab. destruct Hlab as [_ ->].
  apply card_checklists_loop_spec in Hchk.
  destruct Hchk as (new & Hk' & _ & _ & Hnew & _).
  unfold all_on_board. rewrite Hl', Hc', Hk', Hd'.
  split; [exact Hl |].
  split; [apply Forall_app; split; [exact Hc | repeat constructor; exact Hb] |].
  split; [apply Forall_app; split; assumption |].
  split; [apply fold_note_ref_on_board; exact Hd |].
  apply Forall_app. split; [exact Hcopies |]. repeat constructor.
  rewrite (list_field_some _ _ _ Hcl). rewrite Forall_map.
  eapply Forall_impl; [| apply snapshots_on_board; exact Hd].
  intros l. apply has_board_label_json.
Qed.

Lemma run_on_board (xs : list json) (i : Z) (st st' : state) :
  all_on_board board_id st ->
  for_enumerate (list_step utcnow board_id) i xs st = Ok st' ->
  all_on_board board_id st'.
Proof.
  apply (run_preserves utcnow (all_on_board board_id)).
  - intros list_id list_pos ci card_item s s' HQ _ H.
    eapply card_step_on_board; eassumption.
  - intros s l (Hl & Hc & Hk & Hd & Hcopies) Hb _.
    unfold all_on_board. cbn [lists cards checklists_global
                                     board_labels_dict].
    repeat split; try assumption.
    apply Forall_app. split; [exact Hl | repeat constructor; exact Hb].
Qed.

Lemma in_map_view {A B : Type} (view : json -> A) (expect : B -> A)
      (outs : list json) (es : list B) (o : json) :
  map view outs = map expect es -> In o outs ->
  exists e, In e es /\ view o = expect e.
Proof.
  intros Hm Hin. apply (in_map view) in Hin. rewrite Hm in Hin.
  apply in_map_iff in Hin. destruct Hin as (e & He & Hin).
  exists e. split; [exact Hin | symmetry; exact He].
Qed.

Lemma items_match_items (chs outs : list json) :
  Forall2 items_match chs outs ->
  Forall (fun ch => field "id" ch <> None
                    /\ Forall (fun it => field "idChecklist" it
                                         = field "id" ch)
                              (list_field "checkItems" ch))
         outs.
Proof.
  intros H. induction H as [| ch o chs outs [Ho Hm] _ IH];
    constructor; [| exact IH].
  rewrite Ho. split; [discriminate |].
  rewrite Forall_forall. intros it Hin.
  destruct (in_map_view _ _ _ _ _ Hm Hin) as (e & _ & Hv).
  unfold item_view, expected_item in Hv. injection Hv as _ Hc0 _.
  exact Hc0.
Qed.

Lemma items_match_ids (chs outs : list json) :
  Forall2 items_match chs outs ->
  Forall (fun ch => In (Some (JStr (gen_trello_id (id_of ch))))
                       (ids_of outs))
         chs.
Proof.
  intros H. induction H as [| ch o chs outs [Ho Hm] _ IH];
    constructor.
  - left. exact Ho.
  - revert IH. apply Forall_impl. intros ch0 Hin. right. exact Hin.
Qed.

Lemma card_step_references (list_id : string) (list_pos ci : Z)
      (card_item : json) (st st' : state) :
  references_resolve st ->
  In (Some (JStr list_id)) (ids_of (lists st)) ->
  card_step utcnow board_id list_id list_pos ci card_item st = Ok st' ->
  references_resolve st'.
Proof.
  intros (Ha & Hb & Hc & Hd & He) Hlid H. apply card_step_fields in H.
  destruct H as (idl & copies & idc & c & Hlab & Hchk & Hl' & Hc' & _ & Hid
                 & _ & Hil & _ & _ & Hidl & _ & Hidc & _).
  pose proof (card_labels_loop_spec _ _ _ _ _ _ Hlab) as Hd'.
  apply card_labels_loop_snapshots in Hlab. destruct Hlab as [-> _].
  apply card_checklists_loop_spec in Hchk.
  destruct Hchk as (new & Hk' & -> & Hview & _ & Hitems).
  unfold references_resolve. rewrite Hl', Hc', Hk', Hd'.
  split; [| split; [| split; [| split]]].
  - apply Forall_app. split; [exact Ha |]. repeat constructor.
    + rewrite Hil. discriminate.
    + rewrite Hil. exact Hlid.
  - apply Forall_app. split.
    + revert Hb. apply Forall_impl. intros ch [Hn Hin].
      split; [exact Hn |]. unfold ids_of. rewrite map_app.
      apply in_or_app. left. exact Hin.
    + rewrite Forall_forall. intros ch Hin.
      destruct (in_map_view _ _ _ _ _ Hview Hin) as (e & _ & Hv).
      unfold checklist_view, expected_checklist in Hv.
      injection Hv as _ Hcard _. rewrite Hcard.
      split; [discriminate |]. unfold ids_of. rewrite map_app.
      apply in_or_app. right. left. exact Hid.
  - apply Forall_app. split; [exact Hc |].
    eapply items_match_items. exact Hitems.
  - apply Forall_app. split.
    + revert Hd. apply Forall_impl. intros c0.
      apply Forall_impl. intros i Hin. unfold ids_of. rewrite map_app.
      apply in_or_app. left. exact Hin.
    + repeat constructor. rewrite (list_field_some _ _ _ Hidc).
      rewrite Forall_map.
      eapply Forall_impl; [| apply items_match_ids; exact Hitems].
      intros ch0 Hin. unfold ids_of. rewrite map_app.
      apply in_or_app. right. exact Hin.
  - apply Forall_app. split.
    + revert He. apply Forall_impl. intros c0.
      apply Forall_impl. intros i Hin.
      apply (fold_note_ref_ids_incl board_id). exact Hin.
    + repeat constructor. rewrite (list_field_some _ _ _ Hidl).
      rewrite Forall_map. apply snapshots_ids.
Qed.

Lemma run_references (xs : list json) (i : Z) (st st' : state) :
  references_resolve st ->
  for_enumerate (list_step utcnow board_id) i xs st = Ok st' ->
  references_resolve st'.
Proof.
  apply (run_preserves utcnow references_resolve).
  - intros list_id list_pos ci card_item s s' HQ Hin H.
    eapply card_step_references; eassumption.
  - intros s l (Ha & Hb & Hc & Hd & He) _ _.
    unfold references_resolve. cbn [lists cards checklists_global
                                          board_labels_dict].
    repeat split; try assumption.
    revert Ha. apply Forall_impl. intros c [Hn Hin].
    split; [exact Hn |]. unfold ids_of. rewrite map_app.
    apply in_or_app. left. exact Hin.
Qed.

End Integrity.

(** X6.  Every list, card, checklist and label of the output board, and
    every label copied into a card, carries the id of the board in its
    [idBoard]. *)
Theorem every_record_on_board {R : StrRepr} (utcnow : nat -> string)
        (doc out : json) :
  main utcnow doc = Ok out ->
  exists board_id,
    field "id" out = Some (JStr board_id)
    /\ Forall (has_board board_id) (list_field "lists" out)
    /\ Forall (has_board board_id) (list_field "cards" out)
    /\ Forall (has_board board_id) (list_field "checklists" out)
    /\ Forall (has_board board_id) (list_field "labels" out)
    /\ Forall (fun c => Forall (has_board board_id) (list_field "labels" c))
              (list_field "cards" out).
Proof.
  intros H. apply main_run in H.
  destruct H as [(_ & -> & _) | (board_id & st & xs & _ & _ & Hrun & ->)].
  - eexists. split; [reflexivity |]. repeat split; constructor.
  - exists board_id. split; [reflexivity |].
    apply run_on_board in Hrun; [| repeat split; constructor].
    destruct Hrun as (Hl & Hc & Hk & Hd & Hcopies).
    change (list_field "lists" (assemble utcnow board_id st)) with (lists st).
    change (list_field "cards" (assemble utcnow board_id st)) with (cards st).
    change (list_field "checklists" (assemble utcnow board_id st))
      with (checklists_global st).
    change (list_field "labels" (assemble utcnow board_id st))
      with (map (fun kl => label_json (snd kl)) (board_labels_dict st)).
    repeat split; try assumption.
    rewrite Forall_map. revert Hd. apply Forall_impl. intros kl.
    apply has_board_label_json.
Qed.

Lemma every_record_on_board_witness :
  exists out,
    @main plain_repr Samples.clock_a MoreSamples.doc_full = Ok out
    /\ field "id" out = Some (JStr (@gen_trello_id plain_repr (JInt 7)))
    /\ Forall (has_board (@gen_trello_id plain_repr (JInt 7)))
              (list_field "checklists" out).
Proof.
  destruct (@main plain_repr Samples.clock_a MoreSamples.doc_full)
    as [out | e] eqn:E; [| vm_compute in E; discriminate E].
  exists out. split; [reflexivity |].
  destruct (@every_record_on_board plain_repr _ _ _ E)
    as (b & Hid & _ & _ & Hk & _).
  assert (Hout : field "id" out
                 = Some (JStr (@gen_trello_id plain_repr (JInt 7)))).
  { apply main_inv in E. destruct E as (kvs & Hdoc & [[Hf _] | Hc]).
    - injection Hdoc as <-. discriminate Hf.
    - destruct Hc as (b' & st & Hc & ->). injection Hdoc as <-.
      apply convert_inv in Hc.
      destruct Hc as (first & rest & fkvs & sorted & Hd & -> & -> & _).
      injection Hd as <- _. reflexivity. }
  split; [exact Hout |].
  rewrite Hid in Hout. injection Hout as <-. exact Hk.
Defined.

(** X7.  The references of the output board resolve: the [idList] of every
    card is the id of a list of the board, the [idCard] of every checklist
    is the id of a card of the board, the [idChecklist] of every check-item
    is the id of the checklist that holds it, and every id in a card's
    [idChecklists] and [idLabels] is the id of a checklist, respectively a
    label, of the board. *)
Theorem output_references_resolve {R : StrRepr} (utcnow : nat -> string)
        (doc out : json) :
  main utcnow doc = Ok out ->
  Forall (fun c => field "idList" c <> None
                   /\ In (field "idList" c) (ids_of (list_field "lists" out)))
         (list_field "cards" out)
  /\ Forall (fun ch => field "idCard" ch <> None
                       /\ In (field "idCard" ch)
                             (ids_of (list_field "cards" out)))
            (list_field "checklists" out)
  /\ Forall (fun ch => field "id" ch <> None
                       /\ Forall (fun it => field "idChecklist" it
                                            = field "id" ch)
                                 (list_field "checkItems" ch))
            (list_field "checklists" out)
  /\ Forall (fun c => Forall (fun i => In (Some i)
                                          (ids_of (list_field "checklists"
                                                              out)))
                             (list_field "idChecklists" c))
            (list_field "cards" out)
  /\ Forall (fun c => Forall (fun i => In (Some i)
                                          (ids_of (list_field "labels" out)))
                             (list_field "idLabels" c))
            (list_field "cards" out).
Proof.
  intros H. apply main_run in H.
  destruct H as [(_ & -> & _) | (board_id & st & xs & _ & _ & Hrun & ->)].
  - repeat split; constructor.
  - apply run_references in Hrun; [| repeat split; constructor].
    destruct Hrun as (Ha & Hb & Hc & Hd & He).
    change (list_field "lists" (assemble utcnow board_id st)) with (lists st).
    change (list_field "cards" (assemble utcnow board_id st)) with (cards st).
    change (list_field "checklists" (assemble utcnow board_id st))
      with (checklists_global st).
    change (list_field "labels" (assemble utcnow board_id st))
      with (map (fun kl => label_json (snd kl)) (board_labels_dict st)).
    repeat split; try assumption.
    revert He. apply Forall_impl. intros c. apply Forall_impl. intros i Hin.
    unfold label_ids in Hin. apply in_map_iff in Hin.
    destruct Hin as (kl & <- & Hin). unfold ids_of. rewrite map_map.
    apply in_map_iff. exists kl. split; [reflexivity | exact Hin].
Qed.

Lemma output_references_resolve_witness :
  exists out,
    @main plain_repr Samples.clock_a MoreSamples.doc_full = Ok out
    /\ Forall (fun ch => field "idCard" ch <> None
                         /\ In (field "idCard" ch)
                               (ids_of (list_field "cards" out)))
              (list_field "checklists" out).
Proof.
  destruct (@main plain_repr Samples.clock_a MoreSamples.doc_full)
    as [out | e] eqn:E; [| vm_compute in E; discriminate E].
  exists out. split; [reflexivity |].
  exact (proj1 (proj2 (@output_references_resolve plain_repr _ _ _ E))).
Defined.


(** ** Checklists, flags, stamps *)

(** X8.  The checklists of a card: one target checklist per source
    checklist, in source order, the k-th (from 1, restarting at every card)
    with pos 16384 * k and the id of the card as idCard; the card's
    idChecklists lists their ids in the same order; and the check-items of
    each are those of the source checklist in order, the k-th (from 1,
    restarting at every checklist) with pos 16384 * k and the id of the
    checklist as idChecklist. *)
Theorem card_checklists_positions {R : StrRepr} (utcnow : nat -> string)
        (board_id list_id : string) (list_pos ci : Z) (card_item : json)
        (st st' : state) :
  card_step utcnow board_id list_id list_pos ci card_item st = Ok st' ->
  exists c new,
    cards st' = cards st ++ [c]
    /\ checklists_global st' = checklists_global st ++ new
    /\ field "idChecklists" c
       = Some (JList (map (fun ch => JStr (gen_trello_id (id_of ch)))
                          (checklists_of card_item)))
    /\ map checklist_view new
       = map (expected_checklist (gen_trello_id (id_of card_item)))
             (enumerate 1 (checklists_of card_item))
    /\ Forall2 items_match (checklists_of card_item) new.
Proof.
  intros H. apply card_step_fields in H.
  destruct H as (idl & copies & idc & c & _ & Hchk & _ & Hc & _ & _ & _ & _
                 & _ & _ & _ & _ & Hidc & _).
  apply card_checklists_loop_spec in Hchk.
  destruct Hchk as (new & Hk & -> & Hview & _ & Hitems).
  exists c, new. repeat split; assumption.
Qed.

Lemma card_checklists_positions_witness :
  exists st',
    @card_step plain_repr Samples.clock_a "board" "list" 16384 1
               MoreSamples.card_full initial_state = Ok st'
    /\ map pos_field (checklists_global st') = [Some 16384]
    /\ map (fun ch => map pos_field (list_field "checkItems" ch))
           (checklists_global st')
       = [[Some 16384; Some 32768]].
Proof.
  destruct (@card_step plain_repr Samples.clock_a "board" "list" 16384 1
                       MoreSamples.card_full initial_state)
    as [st' | e] eqn:E; [| vm_compute in E; discriminate E].
  exists st'. split; [reflexivity |].
  destruct (@card_checklists_positions plain_repr _ _ _ _ _ _ _ _ E)
    as (c & new & _ & Hk & _ & Hview & Hitems).
  simpl in Hk. subst new.
  split.
  - apply (f_equal (map snd)) in Hview. rewrite map_map in Hview.
    etransitivity; [exact Hview |]. reflexivity.
  - inversion Hitems as [| ch o chs outs [_ Hm] Hrest Hchs Houts].
    inversion Hrest; subst. cbn [map]. f_equal.
    apply (f_equal (map snd)) in Hm. rewrite map_map in Hm.
    etransitivity; [exact Hm |]. vm_compute. reflexivity.
Defined.



Lemma gen_short_link_length (s : string) :
  String.length (gen_short_link s) = 8%nat.
Proof.
  unfold gen_short_link. rewrite substring_0_length, hexdigest_length.
  reflexivity.
Qed.

Lemma gen_short_link_is_hex (s : string) : is_hex (gen_short_link s) = true.
Proof.
  unfold gen_short_link. apply substring_0_is_hex.
  unfold MD5.hexdigest. apply hex_of_bytes_is_hex.
Qed.

Section Stamps.

Context {R : StrRepr}.
Variable utcnow : nat -> string.
Variable board_id : string.

Lemma run_stamped (xs : list json) (i : Z) (st st' : state) :
  stamped utcnow st /\ Forall linked (cards st) ->
  for_enumerate (list_step utcnow board_id) i xs st = Ok st' ->
  stamped utcnow st' /\ Forall linked (cards st').
Proof.
  apply (run_preserves utcnow
           (fun s => stamped utcnow s /\ Forall linked (cards s))).
  - intros list_id list_pos ci card_item s s' [[Hm Ht] Hl] _ H.
    apply card_step_fields in H.
    destruct H as (idl & copies & idc & c & _ & _ & _ & Hc & Ht' & Hid & _
                   & _ & _ & Hsl & _ & _ & _ & Hstamp).
    unfold stamped. rewrite Hc, Ht', length_app, map_app, Hm.
    cbn [List.length map]. rewrite Nat.add_1_r, seq_S, map_app.
    cbn [map Nat.add]. rewrite Hstamp, Ht.
    split; [split; [reflexivity | reflexivity] |].
    apply Forall_app. split; [exact Hl |]. repeat constructor.
    eexists. split; [exact Hid | exact Hsl].
  - intros s l HQ _ _. exact HQ.
Qed.

End Stamps.

(** X10.  The clock is read once per card, in the order the cards are
    made, and then twice for the board: the k-th card (from 0) is stamped
    with the k-th reading, and with n cards dateLastActivity of the board
    is reading n and dateLastView reading n + 1; the minimal board of a
    document without data has no timestamp. *)
Theorem timestamps_in_order {R : StrRepr} (utcnow : nat -> string)
        (doc out : json) :
  main utcnow doc = Ok out ->
  map (field "dateLastActivity") (list_field "cards" out)
  = map (fun k => Some (JStr (utcnow k ++ "Z")%string))
        (seq 0 (List.length (list_field "cards" out)))
  /\ ((out = empty_board
       /\ field "dateLastActivity" out = None
       /\ field "dateLastView" out = None)
      \/ (field "dateLastActivity" out
          = Some (JStr (utcnow (List.length (list_field "cards" out))
                               ++ "Z")%string)
          /\ field "dateLastView" out
             = Some (JStr (utcnow (S (List.length (list_field "cards" out)))
                                  ++ "Z")%string))).
Proof.
  intros H. apply main_run in H.
  destruct H as [(_ & -> & _) | (board_id & st & xs & _ & _ & Hrun & ->)].
  - split; [reflexivity |]. left. repeat split.
  - apply run_stamped in Hrun;
      [| split; [split; reflexivity | constructor]].
    destruct Hrun as [[Hm Ht] _].
    change (list_field "cards" (assemble utcnow board_id st)) with (cards st).
    split; [exact Hm |]. right. rewrite <- Ht. split; reflexivity.
Qed.

Lemma timestamps_in_order_witness :
  exists out,
    @main plain_repr Samples.clock_a Samples.doc_two_lists = Ok out
    /\ map (field "dateLastActivity") (list_field "cards" out)
       = map (fun k => Some (JStr (Samples.clock_a k ++ "Z")%string))
             (seq 0 (List.length (list_field "cards" out))).
Proof.
  destruct (@main plain_repr Samples.clock_a Samples.doc_two_lists)
    as [out | e] eqn:E; [| vm_compute in E; discriminate E].
  exists out. split; [reflexivity |].
  exact (proj1 (@timestamps_in_order plain_repr _ _ _ E)).
Defined.

(** X11.  The shortLink of every card of the output is the first 8
    hexadecimal characters of the MD5 digest of the card's own 24-character
    id. *)
Theorem cards_short_links {R : StrRepr} (utcnow : nat -> string)
        (doc out : json) :
  main utcnow doc = Ok out ->
  Forall (fun c => exists id,
              field "id" c = Some (JStr id)
              /\ field "shortLink" c = Some (JStr (gen_short_link id))
              /\ String.length (gen_short_link id) = 8%nat
              /\ is_hex (gen_short_link id) = true)
         (list_field "cards" out).
Proof.
  intros H. apply main_run in H.
  destruct H as [(_ & -> & _) | (board_id & st & xs & _ & _ & Hrun & ->)].
  - constructor.
  - apply run_stamped in Hrun;
      [| split; [split; reflexivity | constructor]].
    destruct Hrun as [_ Hl].
    change (list_field "cards" (assemble utcnow board_id st)) with (cards st).
    revert Hl. apply Forall_impl. intros c (id & Hid & Hsl).
    exists id. split; [exact Hid |]. split; [exact Hsl |].
    split; [apply gen_short_link_length | apply gen_short_link_is_hex].
Qed.

Lemma cards_short_links_witness :
  exists out,
    @main plain_repr Samples.clock_a Samples.doc_one_card = Ok out
    /\ Forall (fun c => exists id,
                   field "id" c = Some (JStr id)
                   /\ field "shortLink" c = Some (JStr (gen_short_link id))
                   /\ String.length (gen_short_link id) = 8%nat
                   /\ is_hex (gen_short_link id) = true)
              (list_field "cards" out).
Proof.
  destruct (@main plain_repr Samples.clock_a Samples.doc_one_card)
    as [out | e] eqn:E; [| vm_compute in E; discriminate E].
  exists out. split; [reflexivity |].
  exact (@cards_short_links plain_repr _ _ _ E).
Defined.


(** ** Nothing lost, uses, and positions that cannot be compared *)

Lemma insert_keyed_perm (kx : json * json) (l r : list (json * json)) :
  insert_keyed kx l = Ok r -> Permutation (kx :: l) r.
Proof.
  revert r. induction l as [| ky l IH]; intros r H.
  - simpl in H. apply Ok_inj in H. subst r. reflexivity.
  - cbn [insert_keyed] in H. bind_inv H. destruct a.
    + bind_inv H. apply Ok_inj in H. subst r.
      rewrite perm_swap. constructor. apply IH. exact Hb0.
    + apply Ok_inj in H. subst r. reflexivity.
Qed.

Lemma sort_keyed_perm (l r : list (json * json)) :
  sort_keyed l = Ok r -> Permutation l r.
Proof.
  revert r. induction l as [| kx l IH]; intros r H.
  - simpl in H. apply Ok_inj in H. subst r. constructor.
  - cbn [sort_keyed] in H. bind_inv H.
    transitivity (kx :: a); [constructor; apply IH; exact Hb |].
    apply insert_keyed_perm. exact H.
Qed.

(** A sort that returns has kept every element, once. *)
Lemma sorted_by_position_perm (xs sorted : list json) :
  sorted_by_position (JList xs) = Ok sorted -> Permutation xs sorted.
Proof.
  unfold sorted_by_position. cbn [py_iter bind]. intros H.
  bind_inv H. bind_inv H. apply Ok_inj in H. subst sorted.
  apply position_keys_dicts in Hb. destruct Hb as [Hm _].
  rewrite <- Hm. apply Permutation_map. apply sort_keyed_perm. exact Hb0.
Qed.

Lemma data_of_list (doc : json) (xs : list json) :
  field "data" doc = Some (JList xs) -> data_of doc = xs.
Proof.
  unfold data_of. intros ->. destruct xs; reflexivity.
Qed.

(** X12.  Nothing is lost and nothing is made up: the ids of the target
    lists are a permutation of the ids synthesized from the source lists,
    and the ids of the target cards a permutation of those synthesized from
    the cards of all source lists. *)
Theorem lists_and_cards_kept {R : StrRepr} (utcnow : nat -> string)
        (doc out : json) :
  main utcnow doc = Ok out ->
  Permutation (ids_of (list_field "lists" out))
              (map (fun x => Some (JStr (gen_trello_id (id_of x))))
                   (data_of doc))
  /\ Permutation (ids_of (list_field "cards" out))
                 (map (fun c => Some (JStr (gen_trello_id (id_of c))))
                      (flat_map cards_of (data_of doc))).
Proof.
  intros H. pose proof (main_run _ _ _ H) as Hrun.
  destruct Hrun as [(Hs & -> & kvs & -> & Hf)
                   | (board_id & st & xs & Hd & Hsort & Hrun & ->)].
  - assert (Hdata : data_of (JDict kvs) = []).
    { unfold data_of, field. destruct (assoc "data" kvs); [| reflexivity].
      rewrite Hf. reflexivity. }
    rewrite Hdata. split; constructor.
  - rewrite (data_of_list _ _ Hd).
    apply sorted_by_position_perm in Hsort.
    apply list_loop_spec in Hrun. destruct Hrun as (Hl & Hc & _).
    simpl in Hl, Hc.
    change (list_field "lists" (assemble utcnow board_id st)) with (lists st).
    change (list_field "cards" (assemble utcnow board_id st)) with (cards st).
    split.
    + apply (f_equal (map fst)) in Hl. rewrite !map_map in Hl.
      unfold ids_of. cbn [list_view expected_list fst] in Hl.
      replace (map (field "id") (lists st))
        with (map (fun x => Some (JStr (gen_trello_id (id_of x))))
                  (sorted_lists doc)).
      * apply Permutation_map. symmetry. exact Hsort.
      * symmetry. etransitivity; [exact Hl |].
        rewrite <- (enumerate_snd 1 (sorted_lists doc)) at 2.
        rewrite map_map. reflexivity.
    + apply (f_equal (map (fun t => fst (fst t)))) in Hc.
      rewrite map_map, expected_cards_ids in Hc.
      unfold ids_of.
      replace (map (field "id") (cards st))
        with (map (fun c => Some (JStr (gen_trello_id (id_of c))))
                  (flat_map cards_of (sorted_lists doc)))
        by (symmetry; exact Hc).
      apply Permutation_map. apply Permutation_flat_map.
      symmetry. exact Hsort.
Qed.

Lemma lists_and_cards_kept_witness :
  exists out,
    @main plain_repr Samples.clock_a Samples.doc_two_lists = Ok out
    /\ Permutation (ids_of (list_field "lists" out))
                   (map (fun x => Some (JStr (@gen_trello_id plain_repr
                                                             (id_of x))))
                        (data_of Samples.doc_two_lists)).
Proof.
  destruct (@main plain_repr Samples.clock_a Samples.doc_two_lists)
    as [out | e] eqn:E; [| vm_compute in E; discriminate E].
  exists out. split; [reflexivity |].
  exact (proj1 (@lists_and_cards_kept plain_repr _ _ _ E)).
Defined.

Lemma labels_find_NoDup (k : label_key) (l : TargetLabel) (d : labels_dict) :
  NoDup (map fst d) -> In (k, l) d -> labels_find k d = Some l.
Proof.
  induction d as [| [k0 l0] d IH]; simpl; intros Hnd Hin; [contradiction |].
  inversion Hnd as [| ? ? Hnotin Hnd']; subst.
  destruct Hin as [Hin | Hin].
  - injection Hin as -> ->. rewrite key_eqb_refl. reflexivity.
  - destruct (key_eqb k0 k) eqn:E.
    + apply key_eqb_eq in E. subst k0. exfalso. apply Hnotin.
      apply (in_map fst) in Hin. exact Hin.
    + apply IH; assumption.
Qed.

Lemma count_key_pos (k : label_key) (ks : list label_key) :
  In k ks -> 1 <= count_key k ks.
Proof.
  assert (Hnn : forall l, 0 <= count_key k l).
  { induction l as [| x l IH]; simpl; [lia |].
    destruct (key_eqb x k); lia. }
  induction ks as [| x ks IH]; simpl; intros Hin; [contradiction |].
  destruct Hin as [-> | Hin].
  - rewrite key_eqb_refl. specialize (Hnn ks). lia.
  - specialize (IH Hin). destruct (key_eqb x k); lia.
Qed.

(** X13.  The [uses] of every label of the output board is the number of
    label references, over all the cards of the board, that map to its
    (color, name) pair; it is at least 1. *)
Theorem board_label_uses {R : StrRepr} (utcnow : nat -> string)
        (doc out : json) :
  main utcnow doc = Ok out ->
  exists canon,
    field "labels" out = Some (JList (map label_json canon))
    /\ Forall (fun l =>
                 lbl_uses l
                 = count_key (key_of l)
                             (map mapped_key
                                  (all_label_refs (sorted_lists doc)))
                 /\ 1 <= lbl_uses l)
              canon.
Proof.
  intros H. apply main_run in H.
  destruct H as [(Hs & -> & _) | (board_id & st & xs & _ & _ & Hrun & ->)].
  - exists []. split; [reflexivity | constructor].
  - apply list_loop_spec in Hrun. destruct Hrun as (_ & _ & _ & _ & Hd).
    simpl in Hd.
    pose proof (fold_note_ref_spec board_id
                                   (all_label_refs (sorted_lists doc)))
      as Hspec.
    cbv zeta in Hspec. rewrite <- Hd in Hspec.
    destruct Hspec as (Hnd & Hkd & Hiff & _).
    exists (map snd (board_labels_dict st)).
    split; [simpl; rewrite map_map; reflexivity |].
    rewrite Forall_map, Forall_forall. intros [k l] Hin. cbn [snd].
    unfold dict_keyed in Hkd. rewrite Forall_forall in Hkd.
    pose proof (Hkd _ Hin) as Hk. cbn [fst snd] in Hk. rewrite Hk.
    pose proof (uses_fold_note_ref board_id k
                  (all_label_refs (sorted_lists doc)) []) as Hu.
    rewrite <- Hd in Hu. unfold uses_of in Hu at 1.
    rewrite (labels_find_NoDup _ _ _ Hnd Hin) in Hu.
    unfold uses_of in Hu. cbn [labels_find] in Hu.
    assert (Hc : lbl_uses l
                 = count_key k (map mapped_key
                                    (all_label_refs (sorted_lists doc))))
      by lia.
    split; [exact Hc |]. rewrite Hc. apply count_key_pos.
    apply Hiff. apply (in_map fst) in Hin. exact Hin.
Qed.

Lemma board_label_uses_witness :
  exists out,
    @main plain_repr Samples.clock_a Samples.doc_two_lists = Ok out
    /\ exists canon,
        field "labels" out = Some (JList (map label_json canon))
        /\ Forall (fun l =>
                     lbl_uses l
                     = count_key (key_of l)
                                 [("orange", "WARNING"); ("orange", "WARNING");
                                  ("green", "正常")]
                     /\ 1 <= lbl_uses l)
                  canon.
Proof.
  destruct (@main plain_repr Samples.clock_a Samples.doc_two_lists)
    as [out | e] eqn:E; [| vm_compute in E; discriminate E].
  exists out. split; [reflexivity |].
  exact (@board_label_uses plain_repr _ _ _ E).
Defined.


(** ** Positions that cannot be compared *)

Lemma py_lt_str (a b : json) :
  is_str a = true -> is_str b = true -> exists r, py_lt a b = Ok r.
Proof.
  destruct a, b; try discriminate. intros _ _. eexists. reflexivity.
Qed.

Lemma py_lt_num_ok (a b : json) :
  is_num a = true -> is_num b = true -> exists r, py_lt a b = Ok r.
Proof.
  unfold is_num. intros Ha Hb.
  destruct (as_num a) as [x |] eqn:Ea; [| discriminate Ha].
  destruct (as_num b) as [y |] eqn:Eb; [| discriminate Hb].
  exists (x <? y). apply py_lt_num; assumption.
Qed.

(** Flat keys of different kinds, or a null, do not compare. *)
Lemma py_lt_flat_error (a b : json) :
  flat_key a = true -> flat_key b = true ->
  (is_num a && is_num b) || (is_str a && is_str b) = false ->
  py_lt a b = Err TypeError.
Proof.
  destruct a, b; simpl; intros Ha Hb H; try discriminate; reflexivity.
Qed.

Lemma insert_keyed_same_kind (kind : json -> bool) (kx : json * json)
      (l : list (json * json)) :
  (forall a b, kind a = true -> kind b = true -> exists r, py_lt a b = Ok r) ->
  kind (fst kx) = true -> forallb kind (map fst l) = true ->
  exists r, insert_keyed kx l = Ok r.
Proof.
  intros Hlt Hx. induction l as [| ky l IH]; intros Hl.
  - eexists. reflexivity.
  - cbn [map forallb] in Hl. apply andb_true_iff in Hl.
    destruct Hl as [Hy Hl]. cbn [insert_keyed].
    destruct (Hlt _ _ Hy Hx) as [b Hb]. rewrite Hb. cbn [bind].
    destruct b; [| eexists; reflexivity].
    destruct (IH Hl) as [r Hr]. rewrite Hr. eexists. reflexivity.
Qed.

Lemma forallb_perm_keys (f : json -> bool) (l r : list (json * json)) :
  Permutation l r -> forallb f (map fst l) = forallb f (map fst r).
Proof.
  intros H. induction H; simpl.
  - reflexivity.
  - rewrite IHPermutation. reflexivity.
  - destruct (f (fst x)), (f (fst y)); reflexivity.
  - rewrite IHPermutation1. exact IHPermutation2.
Qed.

Lemma homogeneous_cons_nonempty (k k' : json) (ks : list json) :
  homogeneous (k :: k' :: ks)
  = (is_num k && forallb is_num (k' :: ks))
    || (is_str k && forallb is_str (k' :: ks)).
Proof. unfold homogeneous. reflexivity. Qed.

Lemma homogeneous_kind (ks : list json) (k : json) :
  homogeneous ks = true -> In k ks ->
  (is_num k = true -> forallb is_num ks = true)
  /\ (is_str k = true -> forallb is_str ks = true).
Proof.
  unfold homogeneous. intros H Hin.
  apply orb_true_iff in H. destruct H as [H | Hs].
  - apply orb_true_iff in H. destruct H as [Hlen | Hn].
    + destruct ks as [| a [| b ks']]; try discriminate Hlen;
        [contradiction |].
      destruct Hin as [-> | []]. simpl.
      split; intros ->; reflexivity.
    + split; [intros _; exact Hn |]. intros Hk.
      rewrite forallb_forall in Hn. specialize (Hn _ Hin).
      destruct k; discriminate.
  - split; [| intros _; exact Hs]. intros Hk.
    rewrite forallb_forall in Hs. specialize (Hs _ Hin).
    destruct k; discriminate.
Qed.

(** The sort returns exactly when its keys can be compared with each
    other, and raises TypeError when they cannot. *)
Lemma sort_keyed_flat (l : list (json * json)) :
  forallb flat_key (map fst l) = true ->
  if homogeneous (map fst l)
  then exists r, sort_keyed l = Ok r
  else sort_keyed l = Err TypeError.
Proof.
  induction l as [| kx l IH]; intros Hflat.
  - simpl. eexists. reflexivity.
  - cbn [map forallb] in Hflat. apply andb_true_iff in Hflat.
    destruct Hflat as [Hx Hl]. specialize (IH Hl).
    cbn [sort_keyed map].
    destruct l as [| ky l'].
    + simpl. eexists. reflexivity.
    + cbn [map]. rewrite homogeneous_cons_nonempty.
      change (fst ky :: map fst l') with (map fst (ky :: l')) in *.
      destruct (homogeneous (map fst (ky :: l'))) eqn:Eh.
      * destruct IH as [r Hr]. rewrite Hr. cbn [bind].
        pose proof (sort_keyed_perm _ _ Hr) as Hperm.
        destruct ((is_num (fst kx) && forallb is_num (map fst (ky :: l')))
                  || (is_str (fst kx) && forallb is_str (map fst (ky :: l'))))
          eqn:Ec.
        -- apply orb_true_iff in Ec. destruct Ec as [Ec | Ec];
             apply andb_true_iff in Ec; destruct Ec as [Hk Hall].
           ++ apply (insert_keyed_same_kind is_num);
                [exact py_lt_num_ok | exact Hk |].
              rewrite <- (forallb_perm_keys _ _ _ Hperm). exact Hall.
           ++ apply (insert_keyed_same_kind is_str);
                [exact py_lt_str | exact Hk |].
              rewrite <- (forallb_perm_keys _ _ _ Hperm). exact Hall.
        -- destruct r as [| kz r'].
           { apply Permutation_sym, Permutation_nil in Hperm.
             discriminate Hperm. }
           cbn [insert_keyed].
           assert (Hz : In kz (ky :: l')).
           { apply (Permutation_in _ (Permutation_sym Hperm)). left.
             reflexivity. }
           assert (Hzflat : flat_key (fst kz) = true).
           { rewrite forallb_forall in Hl. apply Hl.
             apply (in_map fst). exact Hz. }
           rewrite (py_lt_flat_error _ _ Hzflat Hx); [reflexivity |].
           apply orb_false_iff in Ec. destruct Ec as [En Es].
           apply (in_map fst) in Hz.
           apply orb_false_iff. split.
           ++ destruct (is_num (fst kz)) eqn:Ez; [| reflexivity].
              destruct (is_num (fst kx)) eqn:Ek; [| reflexivity].
              rewrite (proj1 (homogeneous_kind _ _ Eh Hz) Ez) in En.
              discriminate En.
           ++ destruct (is_str (fst kz)) eqn:Ez; [| reflexivity].
              destruct (is_str (fst kx)) eqn:Ek; [| reflexivity].
              rewrite (proj2 (homogeneous_kind _ _ Eh Hz) Ez) in Es.
              discriminate Es.
      * rewrite IH. cbn [bind].
        destruct ((is_num (fst kx) && forallb is_num (map fst (ky :: l')))
                  || (is_str (fst kx) && forallb is_str (map fst (ky :: l'))))
          eqn:Ec; [| reflexivity].
        exfalso. unfold homogeneous in Eh.
        apply orb_false_iff in Eh. destruct Eh as [Eh Es].
        apply orb_false_iff in Eh. destruct Eh as [_ En].
        apply orb_true_iff in Ec. destruct Ec as [Ec | Ec];
          apply andb_true_iff in Ec; destruct Ec as [_ Hall].
        -- rewrite Hall in En. discriminate En.
        -- rewrite Hall in Es. discriminate Es.
Qed.

Lemma position_keys_of_dicts (xs : list json) :
  forallb is_dict xs = true ->
  exists ks, position_keys xs = Ok ks
             /\ map fst ks = map position_key xs.
Proof.
  induction xs as [| x xs IH]; intros H.
  - exists []. split; reflexivity.
  - cbn [forallb] in H. apply andb_true_iff in H. destruct H as [Hx Hxs].
    destruct (IH Hxs) as (ks & Hks & Hm).
    destruct x; try discriminate Hx.
    cbn [position_keys]. rewrite py_get_dict. cbn [bind]. rewrite Hks.
    cbn [bind]. eexists. split; [reflexivity |].
    cbn [map fst]. rewrite Hm. reflexivity.
Qed.

(** X14.  The sort of the lists raises TypeError exactly when their
    position keys cannot be compared with each other: with list records
    whose [position] is a number, a string or null (absent counts as 0),
    the conversion raises TypeError when there are two lists or more and
    the keys are not all numbers nor all strings, and the sort returns in
    every other case; a single list is never compared, so its position may
    even be null. *)
Theorem mixed_positions_raise {R : StrRepr} (utcnow : nat -> string)
        (kvs : list (string * json)) (xs : list json) :
  assoc "data" kvs = Some (JList xs) ->
  forallb is_dict xs = true ->
  forallb flat_key (map position_key xs) = true ->
  (homogeneous (map position_key xs) = false ->
   main utcnow (JDict kvs) = Err TypeError)
  /\ (homogeneous (map position_key xs) = true ->
      exists sorted, sorted_by_position (JList xs) = Ok sorted
                     /\ Permutation xs sorted).
Proof.
  intros Hd Hdict Hflat.
  destruct (position_keys_of_dicts xs Hdict) as (ks & Hks & Hm).
  pose proof (sort_keyed_flat ks) as Hsort. rewrite Hm in Hsort.
  specialize (Hsort Hflat).
  split; intros Hh; rewrite Hh in Hsort.
  - unfold main. rewrite py_get_dict, Hd.
    destruct xs as [| x rest]; [discriminate Hh |].
    cbn [bind truthy negb]. unfold convert. cbn [py_getitem].
    rewrite Hd. cbn [bind py_getitem0].
    cbn [forallb] in Hdict. apply andb_true_iff in Hdict.
    destruct Hdict as [Hx _]. destruct x; try discriminate Hx.
    rewrite py_get_dict. cbn [bind]. unfold sorted_by_position.
    cbn [py_iter bind]. rewrite Hks. cbn [bind]. rewrite Hsort.
    reflexivity.
  - destruct Hsort as [r Hr]. exists (map snd r).
    assert (Hs : sorted_by_position (JList xs) = Ok (map snd r)).
    { unfold sorted_by_position. cbn [py_iter bind]. rewrite Hks.
      cbn [bind]. rewrite Hr. reflexivity. }
    split; [exact Hs |]. apply sorted_by_position_perm. exact Hs.
Qed.

Lemma mixed_positions_raise_witness :
  assoc "data" [("data",
                 JList [JDict [("id", JInt 1); ("position", JInt 1)];
                        JDict [("id", JInt 2); ("position", JStr "2")]])]
  = Some (JList [JDict [("id", JInt 1); ("position", JInt 1)];
                 JDict [("id", JInt 2); ("position", JStr "2")]])
  /\ @main plain_repr Samples.clock_a MoreSamples.doc_mixed_positions
     = Err TypeError.
Proof.
  assert (Hd : assoc "data"
                 [("data",
                   JList [JDict [("id", JInt 1); ("position", JInt 1)];
                          JDict [("id", JInt 2); ("position", JStr "2")]])]
               = Some (JList [JDict [("id", JInt 1); ("position", JInt 1)];
                              JDict [("id", JInt 2);
                                     ("position", JStr "2")]]))
    by reflexivity.
  split; [exact Hd |].
  exact (proj1 (@mixed_positions_raise plain_repr Samples.clock_a _ _ Hd
                                       eq_refl eq_refl) eq_refl).
Defined.


(** ** Order of the board labels; collections that are not lists *)

Lemma existsb_key_find (k : label_key) (d : labels_dict) :
  existsb (key_eqb k) (map fst d)
  = match labels_find k d with Some _ => true | None => false end.
Proof.
  induction d as [| [k0 l0] d IH]; simpl; [reflexivity |].
  destruct (key_eqb k0 k) eqn:E.
  - apply key_eqb_eq in E. subst k0. rewrite key_eqb_refl. reflexivity.
  - assert (E' : key_eqb k k0 = false).
    { apply key_eqb_neq. intros ->. rewrite key_eqb_refl in E.
      discriminate E. }
    rewrite E'. exact IH.
Qed.

Lemma fold_note_ref_keys {R : StrRepr} (board_id : string)
      (refs : list json) (d : labels_dict) :
  map fst (fold_left (note_ref board_id) refs d)
  = map fst d ++ first_seen (map fst d) (map mapped_key refs).
Proof.
  revert d. induction refs as [| lb refs IH]; intros d.
  - simpl. rewrite app_nil_r. reflexivity.
  - cbn [fold_left map first_seen]. rewrite IH, existsb_key_find.
    unfold note_ref.
    destruct (labels_find (mapped_key lb) d) as [l0 |] eqn:E.
    + rewrite labels_set_keys. reflexivity.
    + rewrite map_app. cbn [map fst]. rewrite <- app_assoc. reflexivity.
Qed.

(** X15.  The labels of the output board are listed in the order in which
    their (color, name) pairs are first referenced, as the cards are
    visited. *)
Theorem board_labels_in_first_reference_order {R : StrRepr}
        (utcnow : nat -> string) (doc out : json) :
  main utcnow doc = Ok out ->
  exists canon,
    field "labels" out = Some (JList (map label_json canon))
    /\ map key_of canon
       = first_seen [] (map mapped_key (all_label_refs (sorted_lists doc))).
Proof.
  intros H. apply main_run in H.
  destruct H as [(Hs & -> & _) | (board_id & st & xs & _ & _ & Hrun & ->)].
  - exists []. rewrite Hs. split; reflexivity.
  - apply list_loop_spec in Hrun. destruct Hrun as (_ & _ & _ & _ & Hd).
    simpl in Hd.
    pose proof (fold_note_ref_spec board_id
                                   (all_label_refs (sorted_lists doc)))
      as Hspec.
    cbv zeta in Hspec. rewrite <- Hd in Hspec.
    destruct Hspec as (_ & Hkd & _).
    exists (map snd (board_labels_dict st)).
    split; [simpl; rewrite map_map; reflexivity |].
    transitivity (map fst (board_labels_dict st)).
    + rewrite map_map. apply map_ext_in. intros kl Hin.
      unfold dict_keyed in Hkd. rewrite Forall_forall in Hkd.
      apply Hkd. exact Hin.
    + rewrite Hd, fold_note_ref_keys. reflexivity.
Qed.

Lemma board_labels_in_first_reference_order_witness :
  exists out,
    @main plain_repr Samples.clock_a Samples.doc_two_lists = Ok out
    /\ exists canon,
        field "labels" out = Some (JList (map label_json canon))
        /\ map key_of canon = [("orange", "WARNING"); ("green", "正常")].
Proof.
  destruct (@main plain_repr Samples.clock_a Samples.doc_two_lists)
    as [out | e] eqn:E; [| vm_compute in E; discriminate E].
  exists out. split; [reflexivity |].
  destruct (@board_labels_in_first_reference_order plain_repr _ _ _ E)
    as (canon & Hl & Hk).
  exists canon. split; [exact Hl |]. rewrite Hk. reflexivity.
Defined.



